(** * Agent routing and execution: a shallow embedding of
      [agent_system/agent_manager.py] and of the registry interface of
      [agent_system/tools.py].

    The three classes of the module ([Agent], [RouterAgent], [AgentManager])
    are embedded as records and functions.  Calls to the language-model
    backend and to tool implementations are the only effects; they are
    threaded through a state-and-exception monad whose state carries the
    external world and a trace of the calls made.

    Text is held as [string]; white space and upper case are classified on
    the ASCII range, the other bytes are left as they are. *)

From Stdlib Require Import String Ascii List ZArith QArith_base Lia DecimalString.
From stdpp Require Import base gmap strings.
Import ListNotations.
Open Scope string_scope.

(** ** Python [str] operations used by the module *)

Definition nl : string := String "010"%char "".
Definition dq : string := String "034"%char "".
Definition sq : string := String "039"%char "".

(** [str.isspace] on the ASCII range: TAB..CR, FS..US and the space. *)
Definition is_space (c : ascii) : bool :=
  let n := nat_of_ascii c in
  ((9 <=? n)%nat && (n <=? 13)%nat) || ((28 <=? n)%nat && (n <=? 32)%nat).

Definition lower_char (c : ascii) : ascii :=
  let n := nat_of_ascii c in
  if ((65 <=? n)%nat && (n <=? 90)%nat)%bool then ascii_of_nat (n + 32) else c.

(** [s.lower()] *)
Fixpoint lower (s : string) : string :=
  match s with
  | EmptyString => EmptyString
  | String c s' => String (lower_char c) (lower s')
  end.

Fixpoint lstrip (s : string) : string :=
  match s with
  | EmptyString => EmptyString
  | String c s' => if is_space c then lstrip s' else s
  end.

Fixpoint rstrip (s : string) : string :=
  match s with
  | EmptyString => EmptyString
  | String c s' =>
      match rstrip s' with
      | EmptyString => if is_space c then EmptyString else String c EmptyString
      | r => String c r
      end
  end.

(** [s.strip()] *)
Definition strip (s : string) : string := rstrip (lstrip s).

(** [s.replace(old, new)] for a one-character [old]. *)
Fixpoint replace (old : ascii) (new : string) (s : string) : string :=
  match s with
  | EmptyString => EmptyString
  | String c s' =>
      if Ascii.eqb c old then new ++ replace old new s'
      else String c (replace old new s')
  end.

Fixpoint drop (n : nat) (s : string) : string :=
  match n, s with
  | O, _ => s
  | S n', String _ s' => drop n' s'
  | S _, EmptyString => EmptyString
  end.

(** [needle in s] for two strings. *)
Fixpoint is_substring (needle s : string) : bool :=
  if String.prefix needle s then true
  else match s with
       | EmptyString => false
       | String _ s' => is_substring needle s'
       end.

Definition str_of_nat (n : nat) : string := NilZero.string_of_uint (Nat.to_uint n).
Definition str_of_Z (z : Z) : string := NilZero.string_of_int (Z.to_int z).

(** ** The tool-block pattern

    [re.findall(r'```tool\s*\n(.*?)\n```', text, re.DOTALL)]: the matcher
    below follows the backtracking order of the pattern.  [\s*] is greedy
    and gives characters back one at a time; [(.*?)] is lazy and, being
    followed only by the closing literal, stops at the first closing
    fence. *)

Definition fence_open : string := "```tool".
Definition fence_close : string := nl ++ "```".

(** [(.*?)\n```]: the captured text and the number of characters matched. *)
Fixpoint lazy_until_close (s : string) : option (string * nat) :=
  if String.prefix fence_close s then Some (EmptyString, 4)
  else match s with
       | EmptyString => None
       | String c s' =>
           match lazy_until_close s' with
           | Some (cap, n) => Some (String c cap, S n)
           | None => None
           end
       end.

(** [\s*\n(.*?)\n```]: first the longer white-space runs, then the shorter. *)
Fixpoint match_ws_nl_body (s : string) : option (string * nat) :=
  match s with
  | EmptyString => None
  | String c s' =>
      let here :=
        if Ascii.eqb c "010"%char then
          match lazy_until_close s' with
          | Some (cap, n) => Some (cap, S n)
          | None => None
          end
        else None in
      if is_space c then
        match match_ws_nl_body s' with
        | Some (cap, n) => Some (cap, S n)
        | None => here
        end
      else here
  end.

(** A match anchored at the head of [s]: group 1 and the match length. *)
Definition match_at (s : string) : option (string * nat) :=
  if String.prefix fence_open s then
    match match_ws_nl_body (drop 7 s) with
    | Some (cap, n) => Some (cap, 7 + n)
    | None => None
    end
  else None.

(** Left-to-right scan for non-overlapping matches; [skip] counts the
    characters still covered by the previous match. *)
Fixpoint findall_from (skip : nat) (s : string) : list string :=
  match s with
  | EmptyString => []
  | String _ s' =>
      match skip with
      | S k => findall_from k s'
      | O =>
          match match_at s with
          | Some (cap, n) => cap :: findall_from (Nat.pred n) s'
          | None => findall_from 0 s'
          end
      end
  end.

Definition findall_tool_blocks (text : string) : list string := findall_from 0 text.

(** ** Values parsed from model output

    The result of [json.loads]: Python's [None], [bool], [int], [float]
    (carried as its printed form), [str], [list] and [dict] (in key order). *)

#[warnings="-register-all"] Inductive JSON : Type :=
| JNull
| JBool (b : bool)
| JInt (z : Z)
| JFloat (printed : string)
| JStr (s : string)
| JArr (items : list JSON)
| JObj (fields : list (string * JSON)).

(** ** Insertion-ordered dictionaries

    [self.agents], the agent descriptions and parsed JSON objects are
    Python dicts whose iteration order is observable (the router prompt
    lists the agents in that order), so they are association lists with
    the update-in-place discipline of [dict.__setitem__]. *)

Section Dict.
Context {V : Type}.

Fixpoint dict_get (k : string) (d : list (string * V)) : option V :=
  match d with
  | [] => None
  | (k', v) :: d' => if String.eqb k k' then Some v else dict_get k d'
  end.

Definition dict_has (k : string) (d : list (string * V)) : bool :=
  match dict_get k d with Some _ => true | None => false end.

Fixpoint dict_set (k : string) (v : V) (d : list (string * V)) : list (string * V) :=
  match d with
  | [] => [(k, v)]
  | (k', v') :: d' =>
      if String.eqb k k' then (k', v) :: d' else (k', v') :: dict_set k v d'
  end.

Definition dict_keys (d : list (string * V)) : list string := map fst d.
End Dict.

(** [x in names] for a list of strings. *)
Definition str_in (x : string) (names : list string) : bool :=
  existsb (String.eqb x) names.

(** ** Exceptions

    Every exception modelled here is an instance of Python's [Exception].
    The wording of the messages the interpreter itself produces is left to
    the platform. *)

Inductive ExnClass : Type := TypeError | AttributeError | KeyError | RuntimeFailure.

Record PyExn : Type := mkExn { exn_class : ExnClass; exn_str : string }.

Inductive Outcome (A : Type) : Type :=
| Ok (a : A)
| Raise (e : PyExn).
Arguments Ok {A} a.
Arguments Raise {A} e.

(** Faults raised by the interpreter on the values of this module. *)
Inductive InterpFault : Type :=
| NotAContainer (v : JSON)      (* membership test on a number, bool or None *)
| Unhashable (v : JSON)         (* a list or a dict looked up as a dict key *)
| NoGetAttribute (v : JSON)     (* the method get on a value that is no dict *)
| BadSubscript (v : JSON)       (* a string subscript on a value that is no dict *)
| MissingKey (k : string)       (* a subscript with an absent key *)
| NotAMapping (v : JSON)        (* keyword unpacking of a value that is no dict *)
| NotCallable.                  (* a call of None *)

Definition fault_class (f : InterpFault) : ExnClass :=
  match f with
  | NoGetAttribute _ => AttributeError
  | MissingKey _ => KeyError
  | _ => TypeError
  end.

(** ** Messages and model requests *)

Record Message : Type := mkMessage { role : string; content : string }.

(** An entry of the caller's conversation history: the two keys the module
    reads, and the others the callers store next to them. *)
Record HistoryMessage : Type := mkHistoryMessage {
  h_role : string;
  h_content : string;
  h_agent : option string;
  h_tools_used : list JSON;
  h_timestamp : string
}.

Definition Temperature : Type := Q.

(** The arguments of one [ollama.chat] call. *)
Record ChatRequest : Type := mkChatRequest {
  req_model : string;
  req_messages : list Message;
  req_temperature : Temperature
}.

(** ** The platform: what the module consumes and does not own *)

Class Platform : Type := {
  (** state of the outside world: model backend, file system, calendar *)
  Env : Type;
  (** [ollama.chat(...)['message']['content']] *)
  ollama_chat : ChatRequest -> Env -> Outcome string * Env;
  (** [json.loads]; [None] stands for [json.JSONDecodeError], the one
      exception [_extract_tool_calls] catches; what else the parser can
      raise (on nesting beyond the recursion limit, on an integer beyond
      the digit limit) is not part of this interface *)
  json_loads : string -> option JSON;
  (** [json.dumps(v, indent=2)] *)
  json_dumps : JSON -> string;
  (** [repr] of a list or a dict *)
  py_repr : JSON -> string;
  (** [str(e)] for an exception raised by the interpreter *)
  fault_str : InterpFault -> string
}.

Section Core.
Context {P : Platform}.

Definition fault {A : Type} (f : InterpFault) : Outcome A :=
  Raise (mkExn (fault_class f) (fault_str f)).

(** [str(v)], as an f-string renders it. *)
Definition py_str (v : JSON) : string :=
  match v with
  | JNull => "None"
  | JBool true => "True"
  | JBool false => "False"
  | JInt z => str_of_Z z
  | JFloat printed => printed
  | JStr s => s
  | JArr _ | JObj _ => py_repr v
  end.

(** ["tool" in v] *)
Definition py_contains (k : string) (v : JSON) : Outcome bool :=
  match v with
  | JObj fields => Ok (dict_has k fields)
  | JArr items =>
      Ok (existsb (fun x => match x with JStr s => String.eqb s k | _ => false end) items)
  | JStr s => Ok (is_substring k s)
  | _ => fault (NotAContainer v)
  end.

(** [v.get(k)] and [v.get(k, default)] *)
Definition py_get (v : JSON) (k : string) (default : JSON) : Outcome JSON :=
  match v with
  | JObj fields => Ok (match dict_get k fields with Some x => x | None => default end)
  | _ => fault (NoGetAttribute v)
  end.

(** [v[k]] for a string [k] *)
Definition py_subscript (v : JSON) (k : string) : Outcome JSON :=
  match v with
  | JObj fields =>
      match dict_get k fields with
      | Some x => Ok x
      | None => fault (MissingKey k)
      end
  | _ => fault (BadSubscript v)
  end.

(** ** The world and the monad of effects *)

Inductive Event : Type :=
| EvChat (req : ChatRequest)
| EvTool (tool : JSON) (kwargs : list (string * JSON))
| EvPrint (line : string).

Record World : Type := mkWorld { env : Env; trace : list Event }.

Definition M (A : Type) : Type := World -> Outcome A * World.

Definition ret {A : Type} (a : A) : M A := fun w => (Ok a, w).

Definition raise {A : Type} (e : PyExn) : M A := fun w => (Raise e, w).

Definition bind {A B : Type} (m : M A) (k : A -> M B) : M B :=
  fun w =>
    match m w with
    | (Ok a, w') => k a w'
    | (Raise e, w') => (Raise e, w')
    end.

(** [try: m  except Exception as e: h e] *)
Definition try_except {A : Type} (m : M A) (h : PyExn -> M A) : M A :=
  fun w =>
    match m w with
    | (Ok a, w') => (Ok a, w')
    | (Raise e, w') => h e w'
    end.

Definition lift {A : Type} (o : Outcome A) : M A := fun w => (o, w).

Definition log (ev : Event) : M unit :=
  fun w => (Ok tt, mkWorld (env w) (trace w ++ [ev])).

End Core.

Declare Scope m_scope.
Delimit Scope m_scope with M.
Notation "x <- c ;; k" := (bind c (fun x => k))
  (at level 100, c at next level, right associativity) : m_scope.
Notation "c ;;; k" := (bind c (fun _ => k))
  (at level 100, right associativity) : m_scope.

Open Scope m_scope.

(** ** [tools.py]: the registry interface *)

Section Registry.
Context {P : Platform}.

(** A tool implementation: keyword arguments in, a result dict out, with
    whatever it does to the outside world; it may raise. *)
Definition ToolFn : Type := list (string * JSON) -> Env -> Outcome JSON * Env.

Record ToolRegistry : Type := mkToolRegistry { tools : gmap string ToolFn }.

(** [tool_name in self.tools]: the keys are strings, a list or a dict
    cannot be hashed, any other value is simply not a key. *)
Definition has_tool (self : ToolRegistry) (tool_name : JSON) : Outcome bool :=
  match tool_name with
  | JArr _ | JObj _ => fault (Unhashable tool_name)
  | JStr s => Ok (bool_decide (is_Some (tools self !! s)))
  | _ => Ok false
  end.

(** [self.tools.get(tool_name)] *)
Definition get_tool (self : ToolRegistry) (tool_name : JSON) : Outcome (option ToolFn) :=
  match tool_name with
  | JArr _ | JObj _ => fault (Unhashable tool_name)
  | JStr s => Ok (tools self !! s)
  | _ => Ok None
  end.

End Registry.

(** ** [class Agent] *)

Section Agent.
Context {P : Platform}.

Record AgentConfig : Type := mkAgentConfig {
  cfg_model : option string;
  cfg_description : option string;
  cfg_temperature : option Temperature;
  cfg_tools : option (list string)
}.

Record Agent : Type := mkAgent {
  name : string;
  model : string;
  description : string;
  temperature : Temperature;
  tool_names : list string;
  tool_registry : ToolRegistry
}.

Definition Agent_init (name : string) (config : AgentConfig) (tool_registry : ToolRegistry)
  : Agent :=
  {| name := name;
     model := default "ministral:3b" (cfg_model config);
     description := default "" (cfg_description config);
     temperature := default (7 # 10)%Q (cfg_temperature config);
     tool_names := default [] (cfg_tools config);
     tool_registry := tool_registry |}.

(** The dict [Agent.execute] returns. *)
Record ExecResult : Type := mkExecResult {
  response : string;
  tools_used : list JSON
}.

Definition chat (req : ChatRequest) : M string :=
  fun w =>
    let '(r, e') := ollama_chat req (env w) in
    (r, mkWorld e' (trace w ++ [EvChat req])).

Definition _build_system_prompt (self : Agent) : string :=
  let prompt :=
    "You are a specialized AI assistant for: " ++ description self ++ nl ++ nl in
  let prompt :=
    match tool_names self with
    | [] => prompt
    | _ =>
        let prompt := prompt ++ "You have access to the following tools:" ++ nl in
        let prompt :=
          fold_left (fun acc tool_name => acc ++ "- " ++ tool_name ++ nl)
                    (tool_names self) prompt in
        let prompt :=
          prompt ++ nl ++ "To use a tool, output a JSON block in this format:" ++ nl in
        let prompt := prompt ++ "```tool" ++ nl in
        let prompt :=
          prompt ++ "{" ++ dq ++ "tool" ++ dq ++ ": " ++ dq ++ "tool_name" ++ dq ++ ", "
                 ++ dq ++ "params" ++ dq ++ ": {" ++ dq ++ "param1" ++ dq ++ ": "
                 ++ dq ++ "value1" ++ dq ++ "}}" ++ nl in
        let prompt := prompt ++ "```" ++ nl ++ nl in
        let prompt :=
          prompt ++ "You can call multiple tools by outputting multiple tool blocks." ++ nl in
        prompt ++ "After using tools, explain the results to the user in natural language."
               ++ nl ++ nl
    end in
  prompt ++ "Be helpful, concise, and accurate in your responses.".

(** The loop body of [_extract_tool_calls] over the regex matches. *)
Fixpoint extract_from_matches (matches : list string) (tool_calls : list JSON)
  : Outcome (list JSON) :=
  match matches with
  | [] => Ok tool_calls
  | m :: rest =>
      match json_loads (strip m) with
      | None => extract_from_matches rest tool_calls
      | Some tool_data =>
          match py_contains "tool" tool_data with
          | Raise e => Raise e
          | Ok true => extract_from_matches rest (tool_calls ++ [tool_data])
          | Ok false => extract_from_matches rest tool_calls
          end
      end
  end.

Definition _extract_tool_calls (text : string) : Outcome (list JSON) :=
  extract_from_matches (findall_tool_blocks text) [].

Definition failure (error : string) : JSON :=
  JObj [("success", JBool false); ("error", JStr error)].

(** [tool_name in self.tool_names], the allow-list being a list of strings. *)
Definition name_in (tool_name : JSON) (names : list string) : bool :=
  match tool_name with
  | JStr s => str_in s names
  | _ => false
  end.

(** [tool_func( **params )]: the call is traced, then the tool acts on the world. *)
Definition call_tool (tool_name : JSON) (tool_func : option ToolFn) (params : JSON)
  : M JSON :=
  match tool_func with
  | None => lift (fault NotCallable)
  | Some f =>
      match params with
      | JObj kwargs =>
          fun w =>
            let '(r, e') := f kwargs (env w) in
            (r, mkWorld e' (trace w ++ [EvTool tool_name kwargs]))
      | _ => lift (fault (NotAMapping params))
      end
  end.

Definition _execute_tool (self : Agent) (tool_call : JSON) : M JSON :=
  tool_name <- lift (py_get tool_call "tool" JNull) ;;
  params <- lift (py_get tool_call "params" (JObj [])) ;;
  registered <- lift (has_tool (tool_registry self) tool_name) ;;
  if negb registered then
    ret (failure ("Tool " ++ py_str tool_name ++ " not found"))
  else if negb (name_in tool_name (tool_names self)) then
    ret (failure ("Tool " ++ py_str tool_name ++ " not available to this agent"))
  else
    tool_func <- lift (get_tool (tool_registry self) tool_name) ;;
    try_except (call_tool tool_name tool_func params)
               (fun e => ret (failure (exn_str e))).

(** [enumerate(tool_results, 1)] folded into the prompt. *)
Fixpoint synthesis_lines (i : nat) (tool_results : list JSON) (prompt : string) : string :=
  match tool_results with
  | [] => prompt
  | result :: rest =>
      synthesis_lines (S i) rest
        (prompt ++ nl ++ "Tool " ++ str_of_nat i ++ ": " ++ json_dumps result ++ nl)
  end.

Definition _build_synthesis_prompt (original_prompt : string) (tool_results : list JSON)
  : string :=
  let prompt :=
    "Based on the tool results below, provide a natural language response to the user's request."
      ++ nl ++ nl in
  let prompt := prompt ++ "User request: " ++ original_prompt ++ nl ++ nl in
  let prompt := prompt ++ "Tool results:" ++ nl in
  let prompt := synthesis_lines 1 tool_results prompt in
  prompt ++ nl ++ "Provide a clear, helpful response based on these results:".

(** [conversation_history[-10:]], each entry cut down to role and content;
    [None] and the empty list are both falsy. *)
Definition history_window (conversation_history : option (list HistoryMessage))
  : list Message :=
  match conversation_history with
  | None | Some [] => []
  | Some h =>
      map (fun msg => mkMessage (h_role msg) (h_content msg))
          (skipn (length h - 10) h)
  end.

(** [messages] as it stands when the first model call is made. *)
Definition first_pass_messages (self : Agent) (prompt : string)
    (conversation_history : option (list HistoryMessage)) : list Message :=
  ([mkMessage "system" (_build_system_prompt self)]
     ++ history_window conversation_history
     ++ [mkMessage "user" prompt])%list.

(** The [for tool_call in tool_calls] loop of [execute]. *)
Fixpoint run_tool_calls (self : Agent) (tool_calls : list JSON)
    (tools_used tool_results : list JSON) : M (list JSON * list JSON) :=
  match tool_calls with
  | [] => ret (tools_used, tool_results)
  | tool_call :: rest =>
      result <- _execute_tool self tool_call ;;
      used <- lift (py_subscript tool_call "tool") ;;
      run_tool_calls self rest (tools_used ++ [used])%list (tool_results ++ [result])%list
  end.

Definition synthesis_messages (messages : list Message) (assistant_message : string)
    (synthesis_prompt : string) : list Message :=
  (messages ++ [mkMessage "assistant" assistant_message;
                mkMessage "user" synthesis_prompt])%list.

Definition execute (self : Agent) (prompt : string)
    (conversation_history : option (list HistoryMessage)) : M ExecResult :=
  let messages := first_pass_messages self prompt conversation_history in
  assistant_message <- chat (mkChatRequest (model self) messages (temperature self)) ;;
  tool_calls <- lift (_extract_tool_calls assistant_message) ;;
  match tool_calls with
  | [] => ret (mkExecResult assistant_message [])
  | _ =>
      r <- run_tool_calls self tool_calls [] [] ;;
      let '(tools_used, tool_results) := r in
      match tool_results with
      | [] => ret (mkExecResult assistant_message tools_used)
      | _ =>
          let synthesis_prompt := _build_synthesis_prompt prompt tool_results in
          final_response <-
            chat (mkChatRequest (model self)
                    (synthesis_messages messages assistant_message synthesis_prompt)
                    (temperature self)) ;;
          ret (mkExecResult final_response tools_used)
      end
  end.

End Agent.

(** ** [class RouterAgent] *)

Section Router.
Context {P : Platform}.

Record RouterConfig : Type := mkRouterConfig {
  rcfg_model : option string;
  rcfg_temperature : option Temperature
}.

Record RouterAgent : Type := mkRouterAgent {
  router_model : string;
  router_temperature : Temperature;
  agent_names : list string;
  agent_descriptions : list (string * string)
}.

Definition RouterAgent_init (config : RouterConfig) (agent_names : list string)
  : RouterAgent :=
  {| router_model := default "gemma2:2b" (rcfg_model config);
     router_temperature := default (3 # 10)%Q (rcfg_temperature config);
     agent_names := agent_names;
     agent_descriptions := [] |}.

Definition set_agent_descriptions (self : RouterAgent) (descriptions : list (string * string))
  : RouterAgent :=
  {| router_model := router_model self;
     router_temperature := router_temperature self;
     agent_names := agent_names self;
     agent_descriptions := descriptions |}.

Definition route_system_prompt (self : RouterAgent) : string :=
  let system_prompt :=
    "You are a routing assistant. Your job is to determine which specialized agent should handle a user's request."
      ++ nl ++ nl in
  let system_prompt := system_prompt ++ "Available agents:" ++ nl in
  let system_prompt :=
    fold_left (fun acc '(agent_name, description) =>
                 acc ++ "- " ++ agent_name ++ ": " ++ description ++ nl)
              (agent_descriptions self) system_prompt in
  let system_prompt :=
    system_prompt ++ nl
      ++ "Analyze the user's request and respond with ONLY the agent name that should handle it."
      ++ nl in
  let system_prompt :=
    system_prompt ++ "Respond with just the agent name, nothing else." ++ nl in
  system_prompt ++ "If no specialized agent fits, respond with 'general'.".

Definition route_messages (self : RouterAgent) (query : string) : list Message :=
  [mkMessage "system" (route_system_prompt self);
   mkMessage "user"
     ("Which agent should handle this request?" ++ nl ++ nl ++ "Request: " ++ query)].

(** The clean-up applied to the model's answer. *)
Definition clean_selection (raw : string) : string :=
  let selected_agent := lower (strip raw) in
  replace "."%char "" (replace "039"%char "" (replace "034"%char "" selected_agent)).

Definition route (self : RouterAgent) (query : string)
    (conversation_history : option (list HistoryMessage)) : M string :=
  let messages := route_messages self query in
  try_except
    (raw <- chat (mkChatRequest (router_model self) messages (router_temperature self)) ;;
     let selected_agent := clean_selection raw in
     if str_in selected_agent (agent_names self) then ret selected_agent
     else ret "general")
    (fun e =>
       log (EvPrint ("Routing error: " ++ exn_str e)) ;;;
       ret "general").

End Router.

(** ** [class AgentManager] *)

Section Manager.
Context {P : Platform}.

Record Config : Type := mkConfig {
  cfg_agents : option (list (string * AgentConfig));
  cfg_router : option RouterConfig
}.

Record AgentManager : Type := mkAgentManager {
  config : Config;
  mgr_tool_registry : ToolRegistry;
  agents : list (string * Agent);
  router : RouterAgent
}.

(** The dict both orchestrator operations return. *)
Record ManagerResult : Type := mkManagerResult {
  mr_response : string;
  agent_used : string;
  mr_tools_used : list JSON
}.

(** One entry of the listing. *)
Record AgentInfo : Type := mkAgentInfo {
  info_description : string;
  info_model : string;
  info_tools : list string
}.

Definition create_agents (agent_configs : list (string * AgentConfig))
    (tool_registry : ToolRegistry) : list (string * Agent) :=
  fold_left (fun acc '(agent_name, agent_config) =>
               dict_set agent_name (Agent_init agent_name agent_config tool_registry) acc)
            agent_configs [].

(** [__init__] followed by [_initialize_agents]. *)
Definition AgentManager_init (config : Config) (tool_registry : ToolRegistry)
  : AgentManager :=
  let agent_configs := default [] (cfg_agents config) in
  let agents := create_agents agent_configs tool_registry in
  let router_config := default (mkRouterConfig None None) (cfg_router config) in
  let router := RouterAgent_init router_config (dict_keys agents) in
  let descriptions :=
    fold_left (fun acc '(name, agent) => dict_set name (description agent) acc) agents [] in
  {| config := config;
     mgr_tool_registry := tool_registry;
     agents := agents;
     router := set_agent_descriptions router descriptions |}.

Definition execute_with_agent (self : AgentManager) (agent_name : string) (query : string)
    (conversation_history : option (list HistoryMessage)) : M ManagerResult :=
  match dict_get agent_name (agents self) with
  | None =>
      ret (mkManagerResult ("Error: Agent '" ++ agent_name ++ "' not found") "error" [])
  | Some agent =>
      result <- execute agent query conversation_history ;;
      ret (mkManagerResult (response result) agent_name (tools_used result))
  end.

Definition process_query (self : AgentManager) (query : string)
    (conversation_history : option (list HistoryMessage)) : M ManagerResult :=
  selected_agent_name <- route (router self) query conversation_history ;;
  execute_with_agent self selected_agent_name query conversation_history.

(** The dict comprehension of [get_agent_list]; the method reads [self]
    and touches nothing else, so it is a computation that only returns. *)
Definition get_agent_list (self : AgentManager) : M (list (string * AgentInfo)) :=
  ret (fold_left
         (fun acc '(name, agent) =>
            dict_set name (mkAgentInfo (description agent) (model agent) (tool_names agent)) acc)
         (agents self) []).

End Manager.

(** ** Notions used to state the properties *)

Section Notions.
Context {P : Platform}.

(** A computation only ever appends to the trace. *)
Definition grows {A : Type} (m : M A) : Prop :=
  forall w, exists later, trace (snd (m w)) = (trace w ++ later)%list.

(** The request [route] sends. *)
Definition route_request (self : RouterAgent) (query : string) : ChatRequest :=
  mkChatRequest (router_model self) (route_messages self query) (router_temperature self).

(** The decision taken on an answer of the model. *)
Definition route_decision (known : list string) (raw : string) : string :=
  if str_in (clean_selection raw) known then clean_selection raw else "general".

(** The entry [get_agent_list] builds for an agent. *)
Definition agent_info (agent : Agent) : AgentInfo :=
  mkAgentInfo (description agent) (model agent) (tool_names agent).

(** The same manager around another router. *)
Definition with_router (self : AgentManager) (r : RouterAgent) : AgentManager :=
  mkAgentManager (config self) (mgr_tool_registry self) (agents self) r.

(** The request of the first model call of [execute]. *)
Definition first_request (self : Agent) (prompt : string)
    (history : option (list HistoryMessage)) : ChatRequest :=
  mkChatRequest (model self) (first_pass_messages self prompt history) (temperature self).

(** The request of the synthesis pass. *)
Definition synthesis_request (self : Agent) (prompt : string)
    (history : option (list HistoryMessage)) (assistant_message : string)
    (tool_results : list JSON) : ChatRequest :=
  mkChatRequest (model self)
    (synthesis_messages (first_pass_messages self prompt history) assistant_message
       (_build_synthesis_prompt prompt tool_results))
    (temperature self).

(** A history entry as it is sent to the model. *)
Definition as_message (msg : HistoryMessage) : Message :=
  mkMessage (h_role msg) (h_content msg).

(** A block body that is either no JSON at all or a JSON object. *)
Definition object_or_garbage (m : string) : Prop :=
  match json_loads (strip m) with
  | None | Some (JObj _) => True
  | Some _ => False
  end.


(** Numbers, booleans and [None]: the values that support no membership test. *)
Definition is_scalar (v : JSON) : bool :=
  match v with
  | JNull | JBool _ | JInt _ | JFloat _ => true
  | _ => false
  end.

(** Lists and dicts: the values that cannot be dict keys. *)
Definition is_unhashable (v : JSON) : bool :=
  match v with
  | JArr _ | JObj _ => true
  | _ => false
  end.

End Notions.

(** ** The routing rule as the specification words it

    "Lower-case the raw response, strip surrounding quote and period
    characters, and accept it only if it exactly matches a known agent
    name."  Kept apart from [clean_selection] to compare the two. *)

Definition quote_or_period (c : ascii) : bool :=
  Ascii.eqb c "034"%char || Ascii.eqb c "039"%char || Ascii.eqb c "."%char.





(** ** A scripted platform

    A backend that replays a fixed list of replies, a parser fixed on the
    literals the examples below use, and a registry of three tools: one
    that writes, one that deletes, one that always raises. *)

Record ScriptEnv : Type := mkScriptEnv {
  replies : list (Outcome string);
  written : list (list (string * JSON))
}.

Definition scripted_chat (req : ChatRequest) (e : ScriptEnv) : Outcome string * ScriptEnv :=
  match replies e with
  | [] => (Raise (mkExn RuntimeFailure "backend unavailable"), e)
  | r :: rest => (r, mkScriptEnv rest (written e))
  end.

Definition write_call_text : string :=
  "{" ++ dq ++ "tool" ++ dq ++ ": " ++ dq ++ "write_file" ++ dq ++ ", "
      ++ dq ++ "params" ++ dq ++ ": {" ++ dq ++ "file_path" ++ dq ++ ": "
      ++ dq ++ "a.txt" ++ dq ++ ", " ++ dq ++ "content" ++ dq ++ ": "
      ++ dq ++ "hi" ++ dq ++ "}}".

Definition write_call : JSON :=
  JObj [("tool", JStr "write_file");
        ("params", JObj [("file_path", JStr "a.txt"); ("content", JStr "hi")])].

Definition event_call_text : string :=
  "{" ++ dq ++ "tool" ++ dq ++ ": " ++ dq ++ "create_event" ++ dq ++ ", "
      ++ dq ++ "params" ++ dq ++ ": {" ++ dq ++ "summary" ++ dq ++ ": "
      ++ dq ++ "lunch" ++ dq ++ "}}".

Definition event_call : JSON :=
  JObj [("tool", JStr "create_event"); ("params", JObj [("summary", JStr "lunch")])].

Definition nested_call_text : string :=
  "{" ++ dq ++ "tool" ++ dq ++ ": {" ++ dq ++ "name" ++ dq ++ ": "
      ++ dq ++ "write_file" ++ dq ++ "}}".

Definition nested_call : JSON := JObj [("tool", JObj [("name", JStr "write_file")])].

Definition truncated_call_text : string := "{" ++ dq ++ "tool" ++ dq ++ ": ".

Definition quoted_text : string := dq ++ "use a tool" ++ dq.

Definition scripted_loads (s : string) : option JSON :=
  dict_get s
    [(write_call_text, write_call);
     (event_call_text, event_call);
     (nested_call_text, nested_call);
     (quoted_text, JStr "use a tool");
     ("5", JInt 5)].

Definition scripted_dumps (v : JSON) : string :=
  match v with
  | JObj fields => "{" ++ String.concat ", " (dict_keys fields) ++ "}"
  | JArr _ => "[...]"
  | JStr s => dq ++ s ++ dq
  | JInt z => str_of_Z z
  | JFloat printed => printed
  | JBool true => "true"
  | JBool false => "false"
  | JNull => "null"
  end.

Definition scripted_fault_str (f : InterpFault) : string :=
  match f with
  | NotAContainer _ => "argument is not iterable"
  | Unhashable _ => "unhashable type"
  | NoGetAttribute _ => "object has no attribute 'get'"
  | BadSubscript _ => "indices must be integers"
  | MissingKey k => k
  | NotAMapping _ => "argument after ** must be a mapping"
  | NotCallable => "object is not callable"
  end.

#[export] Instance scripted : Platform := {|
  Env := ScriptEnv;
  ollama_chat := scripted_chat;
  json_loads := scripted_loads;
  json_dumps := scripted_dumps;
  py_repr := scripted_dumps;
  fault_str := scripted_fault_str
|}.

Definition write_file_tool : @ToolFn scripted :=
  fun kwargs e =>
    (Ok (JObj [("success", JBool true); ("mode", JStr "written")]),
     mkScriptEnv (replies e) (written e ++ [kwargs])).

Definition delete_file_tool : @ToolFn scripted :=
  fun kwargs e => (Ok (JObj [("success", JBool true)]), mkScriptEnv (replies e) []).

Definition create_event_tool : @ToolFn scripted :=
  fun kwargs e => (Raise (mkExn RuntimeFailure "calendar offline"), e).

Definition scripted_registry : @ToolRegistry scripted :=
  mkToolRegistry
    (<[ "write_file" := write_file_tool ]>
       (<[ "delete_file" := delete_file_tool ]>
          (<[ "create_event" := create_event_tool ]> ∅))).

Definition scripted_world (rs : list (Outcome string)) : @World scripted :=
  mkWorld (mkScriptEnv rs []) [].

Definition tool_block (body : string) : string :=
  "```tool" ++ nl ++ body ++ nl ++ "```".

(** A configuration without an agent called "general". *)
Definition calendar_only : Config :=
  mkConfig
    (Some [("calendar",
            mkAgentConfig None (Some "Calendar management") None (Some ["create_event"]))])
    None.

(** A configuration with "general" and two specialists. *)
Definition three_agents : Config :=
  mkConfig
    (Some [("general", mkAgentConfig None (Some "General conversation") None None);
           ("calendar",
            mkAgentConfig None (Some "Calendar management") None (Some ["create_event"]));
           ("file_manager",
            mkAgentConfig None (Some "File operations") (Some (3 # 10)%Q)
              (Some ["write_file"]))])
    (Some (mkRouterConfig (Some "gemma2:2b") (Some (3 # 10)%Q))).

Definition file_manager : @Agent scripted :=
  Agent_init "file_manager"
    (mkAgentConfig None (Some "File operations") None (Some ["write_file"]))
    scripted_registry.

Definition calendar_agent : @Agent scripted :=
  Agent_init "calendar"
    (mkAgentConfig None (Some "Calendar management") None
       (Some ["create_event"; "write_file"]))
    scripted_registry.

(** ** Text on which the embedding of [str] is exact

    [strip], [lower] and the pattern of [findall_tool_blocks] classify
    white space and case on the ASCII range, where Python classifies
    them on all of Unicode.  The two agree on text made of ASCII
    characters; the properties that depend on the classification are
    stated for such text. *)


(** ** Notions used to state what the tool loop does *)

Section LoopNotions.
Context {P : Platform}.

Definition is_upper (c : ascii) : bool :=
  let n := nat_of_ascii c in ((65 <=? n)%nat && (n <=? 90)%nat)%bool.

Definition is_tool_event (ev : Event) : Prop :=
  match ev with EvTool _ _ => True | _ => False end.

(** A computation that appends to the trace events of one kind only. *)
Definition emits (Q : Event -> Prop) {A : Type} (m : M A) : Prop :=
  forall w, exists later,
    trace (snd (m w)) = (trace w ++ later)%list /\ Forall Q later.

(** The value under "tool" of an extracted call. *)
Definition tool_of (tool_call : JSON) : JSON :=
  match tool_call with
  | JObj fields => default JNull (dict_get "tool" fields)
  | _ => JNull
  end.

(** The value under "params", or the empty dict. *)
Definition params_of (tool_call : JSON) : JSON :=
  match tool_call with
  | JObj fields => default (JObj []) (dict_get "params" fields)
  | _ => JObj []
  end.

(** A dict with a "tool" entry that can be looked up in a dict. *)
Definition well_formed_call (tool_call : JSON) : bool :=
  match tool_call with
  | JObj fields =>
      match dict_get "tool" fields with
      | Some tool_name => negb (is_unhashable tool_name)
      | None => false
      end
  | _ => false
  end.

(** Registered and on the agent's list. *)
Definition permitted (self : Agent) (tool_name : JSON) : bool :=
  match has_tool (tool_registry self) tool_name with
  | Ok true => name_in tool_name (tool_names self)
  | _ => false
  end.

(** The tool invocation a call leads to, if any. *)
Definition invocation_of (self : Agent) (tool_call : JSON) : list Event :=
  if permitted self (tool_of tool_call) then
    match params_of tool_call with
    | JObj kwargs => [EvTool (tool_of tool_call) kwargs]
    | _ => []
    end
  else [].

End LoopNotions.

(** ** Notions used to state what the prompts hold *)

Section PromptNotions.
Context {P : Platform}.

(** The line of the synthesis prompt that carries the [i]-th result. *)
Definition result_line (i : nat) (result : JSON) : string :=
  nl ++ "Tool " ++ str_of_nat i ++ ": " ++ json_dumps result ++ nl.

End PromptNotions.

(** ** [ToolRegistry.__init__] and the default configuration *)

Section Defaults.
Context {P : Platform}.

(** The thirteen tool methods of [ToolRegistry]; what they do to files, the
    web and the calendar is outside this development. *)
Record ToolMethods : Type := mkToolMethods {
  read_file : ToolFn;
  write_file : ToolFn;
  list_directory : ToolFn;
  create_directory : ToolFn;
  delete_file : ToolFn;
  analyze_document : ToolFn;
  extract_text : ToolFn;
  web_search : ToolFn;
  fetch_url : ToolFn;
  create_event : ToolFn;
  list_events : ToolFn;
  delete_event : ToolFn;
  execute_code : ToolFn
}.

(** [self.tools] as [ToolRegistry.__init__] fills it. *)
Definition ToolRegistry_init (methods : ToolMethods) : ToolRegistry :=
  mkToolRegistry
    (list_to_map
       [("read_file", read_file methods);
        ("write_file", write_file methods);
        ("list_directory", list_directory methods);
        ("create_directory", create_directory methods);
        ("delete_file", delete_file methods);
        ("analyze_document", analyze_document methods);
        ("extract_text", extract_text methods);
        ("web_search", web_search methods);
        ("fetch_url", fetch_url methods);
        ("create_event", create_event methods);
        ("list_events", list_events methods);
        ("delete_event", delete_event methods);
        ("execute_code", execute_code methods)]).

End Defaults.

(** The configuration [MultiAgentAssistant._load_config] returns when no
    configuration file exists. *)
Definition default_config : Config :=
  mkConfig
    (Some
       [("general",
         mkAgentConfig (Some "ministral:3b") (Some "General conversation and questions")
           (Some (7 # 10)%Q) None);
        ("file_manager",
         mkAgentConfig (Some "ministral:3b")
           (Some "File operations, saving documents, managing files") (Some (3 # 10)%Q)
           (Some ["read_file"; "write_file"; "list_directory"; "create_directory"]));
        ("calendar",
         mkAgentConfig (Some "ministral:3b") (Some "Calendar management, scheduling, events")
           (Some (3 # 10)%Q) (Some ["create_event"; "list_events"; "delete_event"]));
        ("web_search",
         mkAgentConfig (Some "ministral:3b")
           (Some "Internet search, current information, web queries") (Some (5 # 10)%Q)
           (Some ["web_search"; "fetch_url"]));
        ("document_analyst",
         mkAgentConfig (Some "ministral:3b")
           (Some "Document reading, analysis, summarization") (Some (4 # 10)%Q)
           (Some ["read_file"; "analyze_document"; "extract_text"]));
        ("code_helper",
         mkAgentConfig (Some "ministral:3b")
           (Some "Code writing, debugging, technical questions") (Some (6 # 10)%Q)
           (Some ["read_file"; "write_file"; "execute_code"]))])
    (Some (mkRouterConfig (Some "gemma2:2b") (Some (3 # 10)%Q))).

(** [_load_config]: the parsed file when there is one, the default
    otherwise. *)
Definition _load_config (file : option Config) : Config :=
  match file with
  | None => default_config
  | Some loaded => loaded
  end.

(** ** [class MultiAgentAssistant] and the dispatch of [MultiAgentWindow.send_query]

    The assistant owns the conversation history; its methods are given
    and give back the assistant.  [now] reads the clock of the outside
    world, as [datetime.now().isoformat()] does. *)

Section Assistant.
Context {P : Platform}.
Variable now : Env -> string.

(** What [MultiAgentAssistant.query] returns: the manager's dict, or the
    error dict, which alone has the key "error". *)
Record AssistantResult : Type := mkAssistantResult {
  ar_response : string;
  ar_agent_used : string;
  ar_tools_used : list JSON;
  ar_error : option string
}.

Record MultiAgentAssistant : Type := mkMultiAgentAssistant {
  assistant_config : Config;
  assistant_registry : ToolRegistry;
  agent_manager : AgentManager;
  conversation_history : list HistoryMessage
}.

Definition MultiAgentAssistant_init (file : option Config) (methods : ToolMethods)
  : MultiAgentAssistant :=
  let config := _load_config file in
  let tool_registry := ToolRegistry_init methods in
  {| assistant_config := config;
     assistant_registry := tool_registry;
     agent_manager := AgentManager_init config tool_registry;
     conversation_history := [] |}.

Definition with_history (self : MultiAgentAssistant) (h : list HistoryMessage)
  : MultiAgentAssistant :=
  mkMultiAgentAssistant (assistant_config self) (assistant_registry self)
    (agent_manager self) h.

Definition user_entry (prompt timestamp : string) : HistoryMessage :=
  mkHistoryMessage "user" prompt None [] timestamp.

Definition assistant_entry (result : ManagerResult) (timestamp : string) : HistoryMessage :=
  mkHistoryMessage "assistant" (mr_response result) (Some (agent_used result))
    (mr_tools_used result) timestamp.

Definition of_manager (result : ManagerResult) : AssistantResult :=
  mkAssistantResult (mr_response result) (agent_used result) (mr_tools_used result) None.

Definition error_result (e : PyExn) : AssistantResult :=
  mkAssistantResult ("Error: " ++ exn_str e) "error" [] (Some (exn_str e)).

Definition query (self : MultiAgentAssistant) (prompt : string) (use_history : bool)
  : M (AssistantResult * MultiAgentAssistant) :=
  fun w =>
    let self1 :=
      if use_history then
        with_history self
          (conversation_history self ++ [user_entry prompt (now (env w))])%list
      else self in
    try_except
      (result <-
         process_query (agent_manager self1) prompt
           (Some (if use_history then conversation_history self1 else [])) ;;
       fun w' =>
         let self2 :=
           if use_history then
             with_history self1
               (conversation_history self1 ++ [assistant_entry result (now (env w'))])%list
           else self1 in
         (Ok (of_manager result, self2), w'))
      (fun e => ret (error_result e, self1))
      w.

Definition clear_history (self : MultiAgentAssistant) : MultiAgentAssistant :=
  with_history self [].

Definition get_history (self : MultiAgentAssistant) : list HistoryMessage :=
  conversation_history self.

Definition get_available_agents (self : MultiAgentAssistant)
  : M (list (string * AgentInfo)) :=
  get_agent_list (agent_manager self).

(** [force_agent] in [send_query]: [None] when the selector shows "auto". *)
Definition force_agent_of (agent_var : string) : option string :=
  if String.eqb agent_var "auto" then None else Some agent_var.

(** The closure [process] of [send_query]: a forced agent is run directly
    on the assistant's history, anything else goes through [query].  An
    empty selector value is falsy, like [None]. *)
Definition send_query_process (assistant : MultiAgentAssistant) (agent_var : string)
    (query_text : string) : M (AssistantResult * MultiAgentAssistant) :=
  match force_agent_of agent_var with
  | Some force_agent =>
      if String.eqb force_agent "" then query assistant query_text true
      else
        result <-
          execute_with_agent (agent_manager assistant) force_agent query_text
            (Some (conversation_history assistant)) ;;
        ret (of_manager result, assistant)
  | None => query assistant query_text true
  end.

(** The history [query] hands to the manager when it keeps history. *)
Definition history_sent (self : MultiAgentAssistant) (prompt : string) (w : World)
  : list HistoryMessage :=
  (conversation_history self ++ [user_entry prompt (now (env w))])%list.

End Assistant.

(** ** [class OllamaAssistant] of [ollama_tray_app.py] *)

Section PlainAssistant.
Context {P : Platform}.

(** [ollama.chat(model=..., messages=...)['message']['content']], the call
    without options. *)
Variable ollama_chat_plain : string -> list Message -> Env -> Outcome string * Env.

Record OllamaAssistant : Type := mkOllamaAssistant {
  plain_model : string;
  plain_history : list Message
}.

Definition OllamaAssistant_init (model : option string) : OllamaAssistant :=
  mkOllamaAssistant (default "ministral:3b" model) [].

Definition plain_query (self : OllamaAssistant) (prompt : string) (use_history : bool)
    (e : Env) : (string * OllamaAssistant) * Env :=
  let messages :=
    if use_history then (plain_history self ++ [mkMessage "user" prompt])%list
    else [mkMessage "user" prompt] in
  match ollama_chat_plain (plain_model self) messages e with
  | (Ok assistant_message, e') =>
      let self' :=
        if use_history then
          mkOllamaAssistant (plain_model self)
            ((plain_history self ++ [mkMessage "user" prompt])
               ++ [mkMessage "assistant" assistant_message])%list
        else self in
      ((assistant_message, self'), e')
  | (Raise ex, e') => (("Error: " ++ exn_str ex, self), e')
  end.

(** A history made of user turns each followed by its answer. *)
Fixpoint alternating (h : list Message) : Prop :=
  match h with
  | [] => True
  | q :: a :: rest => role q = "user" /\ role a = "assistant" /\ alternating rest
  | _ => False
  end.

End PlainAssistant.

(** ** The search of [save_last_response]

    The loop that walks the history backwards to the last assistant entry
    and takes the entry before it as the query when that one is a user
    entry.  [None] when there is no assistant entry or its content is
    empty, the cases in which nothing is saved. *)

Fixpoint find_last_assistant (newest_first : list HistoryMessage)
  : option (HistoryMessage * option string) :=
  match newest_first with
  | [] => None
  | m :: older =>
      if String.eqb (h_role m) "assistant" then
        Some (m,
              match older with
              | q :: _ => if String.eqb (h_role q) "user" then Some (h_content q) else None
              | [] => None
              end)
      else find_last_assistant older
  end.

Definition response_to_save (history : list HistoryMessage)
  : option (HistoryMessage * option string) :=
  match find_last_assistant (rev history) with
  | Some (m, last_query) =>
      if String.eqb (h_content m) "" then None else Some (m, last_query)
  | None => None
  end.

(** * Properties *)

(** ** Dictionaries and membership *)

Section DictFacts.
Context {V : Type}.
Implicit Types (d : list (string * V)) (k : string).

Lemma str_in_In (x : string) (names : list string) :
  str_in x names = true <-> In x names.
Proof.
  unfold str_in. rewrite existsb_exists. split.
  - intros (y & Hy & Heq). apply String.eqb_eq in Heq. now subst.
  - intros H. exists x. split; [assumption | apply String.eqb_refl].
Qed.

Lemma dict_get_keys d k :
  In k (dict_keys d) <-> exists v, dict_get k d = Some v.
Proof.
  induction d as [| [k' v'] d IH]; simpl.
  - split; [tauto | intros [v Hv]; discriminate].
  - destruct (String.eqb_spec k k') as [-> | Hne].
    + split; [eauto | auto].
    + rewrite <- IH. split; [intros [? | ?]; [congruence | assumption] | auto].
Qed.

Lemma dict_get_not_key d k :
  ~ In k (dict_keys d) <-> dict_get k d = None.
Proof.
  rewrite dict_get_keys. destruct (dict_get k d) as [v |].
  - split; [intros H; exfalso; eauto | discriminate].
  - split; [reflexivity | intros _ [v Hv]; discriminate].
Qed.

Lemma dict_set_fresh d k (v : V) :
  ~ In k (dict_keys d) -> dict_set k v d = (d ++ [(k, v)])%list.
Proof.
  induction d as [| [k' v'] d IH]; simpl; intros Hk.
  - reflexivity.
  - destruct (String.eqb_spec k k') as [-> | Hne]; [tauto |].
    rewrite IH; tauto.
Qed.

Lemma dict_set_keys_incl d k (v : V) x :
  In x (dict_keys (dict_set k v d)) <-> x = k \/ In x (dict_keys d).
Proof.
  induction d as [| [k' v'] d IH]; simpl.
  - intuition.
  - destruct (String.eqb_spec k k') as [-> | Hne]; simpl.
    + intuition.
    + rewrite IH. intuition.
Qed.

Lemma dict_set_keys_NoDup d k (v : V) :
  List.NoDup (dict_keys d) -> List.NoDup (dict_keys (dict_set k v d)).
Proof.
  induction d as [| [k' v'] d IH]; simpl; intros Hnd.
  - constructor; [simpl; tauto | constructor].
  - inversion Hnd as [| ? ? Hnotin Hnd']; subst.
    destruct (String.eqb_spec k k') as [-> | Hne]; simpl.
    + constructor; assumption.
    + constructor; [| auto].
      rewrite dict_set_keys_incl. intros [-> | Hin]; [congruence | tauto].
Qed.

End DictFacts.

(** A comprehension [{k: g(v) for k, v in d.items()}] over a dict with
    distinct keys is the entry-wise image of [d]. *)
Lemma comprehension_map {V W : Type} (g : V -> W) (acc : list (string * W))
    (src : list (string * V)) :
  List.NoDup (dict_keys src) ->
  (forall k, In k (dict_keys src) -> ~ In k (dict_keys acc)) ->
  fold_left (fun acc '(k, v) => dict_set k (g v) acc) src acc
  = (acc ++ map (fun '(k, v) => (k, g v)) src)%list.
Proof.
  revert acc. induction src as [| [k v] src IH]; simpl; intros acc Hnd Hdisj.
  - now rewrite app_nil_r.
  - inversion Hnd as [| ? ? Hnotin Hnd']; subst.
    rewrite dict_set_fresh by (apply Hdisj; now left).
    rewrite IH; [now rewrite <- app_assoc | assumption |].
    intros x Hx. unfold dict_keys. rewrite map_app, in_app_iff. simpl.
    intros [Hacc | [<- | []]]; [| tauto].
    apply (Hdisj x); [now right | exact Hacc].
Qed.

(** ** The monad *)

Section MonadFacts.
Context {P : Platform}.

Lemma grows_ret {A} (a : A) : grows (ret a).
Proof. intros w. exists []. simpl. now rewrite app_nil_r. Qed.

Lemma grows_lift {A} (o : Outcome A) : grows (lift o).
Proof. intros w. exists []. simpl. now rewrite app_nil_r. Qed.

Lemma grows_log (ev : Event) : grows (log ev).
Proof. intros w. now exists [ev]. Qed.

Lemma grows_chat (req : ChatRequest) : grows (chat req).
Proof.
  intros w. exists [EvChat req]. unfold chat.
  now destruct (ollama_chat req (env w)).
Qed.

Lemma grows_bind {A B} (m : M A) (k : A -> M B) :
  grows m -> (forall a, grows (k a)) -> grows (bind m k).
Proof.
  intros Hm Hk w. unfold bind. destruct (Hm w) as [l1 Hl1].
  destruct (m w) as [[a | e] w1]; simpl in *.
  - destruct (Hk a w1) as [l2 Hl2]. exists (l1 ++ l2)%list.
    now rewrite Hl2, Hl1, app_assoc.
  - now exists l1.
Qed.

Lemma grows_try_except {A} (m : M A) (h : PyExn -> M A) :
  grows m -> (forall e, grows (h e)) -> grows (try_except m h).
Proof.
  intros Hm Hh w. unfold try_except. destruct (Hm w) as [l1 Hl1].
  destruct (m w) as [[a | e] w1]; simpl in *.
  - now exists l1.
  - destruct (Hh e w1) as [l2 Hl2]. exists (l1 ++ l2)%list.
    now rewrite Hl2, Hl1, app_assoc.
Qed.

Lemma chat_unfold (req : ChatRequest) (w : World) :
  chat req w =
  (fst (ollama_chat req (env w)),
   mkWorld (snd (ollama_chat req (env w))) (trace w ++ [EvChat req])).
Proof. unfold chat. now destruct (ollama_chat req (env w)). Qed.

End MonadFacts.

Create HintDb grows.
#[export] Hint Resolve grows_ret grows_lift grows_log grows_chat : grows.

(** ** Router *)

Section RouterFacts.
Context {P : Platform}.

(** [route] step by step: one model call, then either the decision on its
    answer or, if the call raised, a printed line and the fallback. *)
Lemma route_unfold (self : RouterAgent) query history (w : World) :
  route self query history w =
  match ollama_chat (route_request self query) (env w) with
  | (Ok raw, e') =>
      (Ok (route_decision (agent_names self) raw),
       mkWorld e' (trace w ++ [EvChat (route_request self query)]))
  | (Raise e, e') =>
      (Ok "general",
       mkWorld e' (trace w ++ [EvChat (route_request self query);
                               EvPrint ("Routing error: " ++ exn_str e)]))
  end.
Proof.
  unfold route, try_except, bind, chat, route_request, route_decision.
  destruct (ollama_chat _ (env w)) as [[raw | e] e']; simpl.
  - now destruct (str_in _ _).
  - now rewrite <- app_assoc.
Qed.

Lemma route_decision_cases (known : list string) (raw : string) :
  (route_decision known raw = clean_selection raw /\ In (clean_selection raw) known)
  \/ (route_decision known raw = "general" /\ ~ In (clean_selection raw) known).
Proof.
  unfold route_decision. destruct (str_in _ _) eqn:Hin.
  - left. split; [reflexivity | now apply str_in_In].
  - right. split; [reflexivity |]. rewrite <- str_in_In. congruence.
Qed.

(** [route] always returns a name: a known one or "general". *)
Lemma route_known_or_general (self : RouterAgent) query history (w : World) :
  exists selected w',
    route self query history w = (Ok selected, w') /\
    (In selected (agent_names self) \/ selected = "general").
Proof.
  rewrite route_unfold.
  destruct (ollama_chat _ (env w)) as [[raw | e] e'].
  - eexists _, _. split; [reflexivity |].
    destruct (route_decision_cases (agent_names self) raw) as [[-> H] | [-> _]]; auto.
  - eexists _, _. split; [reflexivity | now right].
Qed.

Lemma replace_empty_absent (c : ascii) (s : string) :
  ~ In c (list_ascii_of_string (replace c "" s)).
Proof.
  induction s as [| a s IH]; simpl; [tauto |].
  destruct (Ascii.eqb_spec a c) as [-> | Hne]; simpl; [assumption |].
  intros [-> | Hin]; [congruence | tauto].
Qed.

Lemma replace_empty_subset (c x : ascii) (s : string) :
  In x (list_ascii_of_string (replace c "" s)) -> In x (list_ascii_of_string s).
Proof.
  induction s as [| a s IH]; simpl; [tauto |].
  destruct (Ascii.eqb a c); simpl; tauto.
Qed.

(** No quote and no period is left anywhere in a cleaned answer. *)
Lemma clean_selection_chars (raw : string) (c : ascii) :
  In c (list_ascii_of_string (clean_selection raw)) -> quote_or_period c = false.
Proof.
  unfold clean_selection, quote_or_period. intros Hin.
  destruct (Ascii.eqb_spec c "034"%char) as [-> | _]; simpl.
  { exfalso. apply replace_empty_subset, replace_empty_subset in Hin.
    exact (replace_empty_absent _ _ Hin). }
  destruct (Ascii.eqb_spec c "039"%char) as [-> | _]; simpl.
  { exfalso. apply replace_empty_subset in Hin.
    exact (replace_empty_absent _ _ Hin). }
  destruct (Ascii.eqb_spec c "."%char) as [-> | _]; simpl; [| reflexivity].
  exfalso. exact (replace_empty_absent _ _ Hin).
Qed.

End RouterFacts.

(** ** Orchestrator *)

Section ManagerFacts.
Context {P : Platform}.

Lemma create_agents_NoDup (agent_configs : list (string * AgentConfig))
    (tool_registry : ToolRegistry) :
  List.NoDup (dict_keys (create_agents agent_configs tool_registry)).
Proof.
  unfold create_agents.
  assert (H : forall acc : list (string * Agent),
             List.NoDup (dict_keys acc) ->
             List.NoDup (dict_keys
               (fold_left (fun acc '(agent_name, agent_config) =>
                  dict_set agent_name (Agent_init agent_name agent_config tool_registry) acc)
                  agent_configs acc))).
  { induction agent_configs as [| [n c] l IH]; simpl; intros acc Hacc; [assumption |].
    apply IH. now apply dict_set_keys_NoDup. }
  apply H. constructor.
Qed.

(** Every configured name becomes an agent, and nothing else does. *)
Lemma create_agents_keys (agent_configs : list (string * AgentConfig))
    (tool_registry : ToolRegistry) (k : string) :
  In k (dict_keys (create_agents agent_configs tool_registry))
  <-> In k (dict_keys agent_configs).
Proof.
  unfold create_agents.
  assert (H : forall acc : list (string * Agent),
             In k (dict_keys
               (fold_left (fun acc '(agent_name, agent_config) =>
                  dict_set agent_name (Agent_init agent_name agent_config tool_registry) acc)
                  agent_configs acc))
             <-> In k (dict_keys acc) \/ In k (dict_keys agent_configs)).
  { induction agent_configs as [| [n c] l IH]; simpl; intros acc; [tauto |].
    rewrite IH, dict_set_keys_incl. intuition. }
  rewrite H. simpl. tauto.
Qed.

Lemma init_agent_names (config : Config) (tool_registry : ToolRegistry) :
  agent_names (router (AgentManager_init config tool_registry))
  = dict_keys (agents (AgentManager_init config tool_registry)).
Proof. reflexivity. Qed.

End ManagerFacts.

(** ** Routing claims *)

(** C1, as amended: when "general" is one of the configured agents, the name
    [route] produces for any query and history is a key of the agent set
    (either the model's cleaned answer, which then is a known name, or
    "general"), and [process_query] hands the query to that agent. *)
Theorem route_selects_configured_agent {P : Platform} (config : Config)
    (tool_registry : ToolRegistry) (query : string)
    (history : option (list HistoryMessage)) (w : World) :
  let m := AgentManager_init config tool_registry in
  In "general" (dict_keys (agents m)) ->
  exists selected w' agent,
    route (router m) query history w = (Ok selected, w') /\
    dict_get selected (agents m) = Some agent /\
    (selected = "general" \/
     exists raw, fst (ollama_chat (route_request (router m) query) (env w)) = Ok raw /\
                 selected = clean_selection raw) /\
    process_query m query history w = execute_with_agent m selected query history w'.
Proof.
  intros m Hgeneral.
  assert (Hkey : forall selected, In selected (agent_names (router m)) ->
                   exists agent, dict_get selected (agents m) = Some agent).
  { intros selected Hin. apply dict_get_keys. exact Hin. }
  assert (Hproc : forall selected w',
             route (router m) query history w = (Ok selected, w') ->
             process_query m query history w
             = execute_with_agent m selected query history w').
  { intros selected w' Hr. unfold process_query, bind. now rewrite Hr. }
  pose proof (route_unfold (router m) query history w) as Hroute.
  destruct (ollama_chat (route_request (router m) query) (env w)) as [[raw | e] e'] eqn:Hchat.
  - destruct (route_decision_cases (agent_names (router m)) raw) as [[Hd Hin] | [Hd _]].
    + destruct (Hkey _ Hin) as [agent Hagent].
      rewrite Hd in Hroute.
      eexists (clean_selection raw), _, agent.
      split; [exact Hroute |]. split; [exact Hagent |].
      split; [right; exists raw; split; reflexivity | now apply Hproc].
    + destruct (Hkey "general" Hgeneral) as [agent Hagent].
      rewrite Hd in Hroute.
      eexists "general", _, agent.
      split; [exact Hroute |]. split; [exact Hagent |].
      split; [now left | now apply Hproc].
  - destruct (Hkey "general" Hgeneral) as [agent Hagent].
    eexists "general", _, agent.
    split; [exact Hroute |]. split; [exact Hagent |].
    split; [now left | now apply Hproc].
Qed.

Lemma route_selects_configured_agent_witness :
  let m := AgentManager_init three_agents scripted_registry in
  In "general" (dict_keys (agents m)) /\
  exists selected w' agent,
    route (router m) "plan lunch" None (scripted_world [Ok "Calendar."])
      = (Ok selected, w') /\
    dict_get selected (agents m) = Some agent /\
    (selected = "general" \/
     exists raw,
       fst (ollama_chat (route_request (router m) "plan lunch")
              (env (scripted_world [Ok "Calendar."]))) = Ok raw /\
       selected = clean_selection raw) /\
    process_query m "plan lunch" None (scripted_world [Ok "Calendar."])
      = execute_with_agent m selected "plan lunch" None w'.
Proof.
  split.
  - vm_compute. left. reflexivity.
  - apply (route_selects_configured_agent three_agents scripted_registry
             "plan lunch" None (scripted_world [Ok "Calendar."])).
    vm_compute. left. reflexivity.
Defined.

(** C1, as stated, fails: with a configuration that has no agent called
    "general", an answer that matches no agent makes [route] return
    "general", which is not a key of the agent set; [process_query] then
    ends in the error result. *)
Lemma route_fallback_not_configured :
  let m := AgentManager_init calendar_only scripted_registry in
  let w := scripted_world [Ok "banana"] in
  fst (route (router m) "hello" None w) = Ok "general" /\
  ~ In "general" (dict_keys (agents m)) /\
  fst (process_query m "hello" None w)
    = Ok (mkManagerResult "Error: Agent 'general' not found" "error" []).
Proof.
  vm_compute. repeat split.
  intros [H | []]. discriminate H.
Qed.




(** C10: [route] does not read the conversation history: for any two
    histories it sends the same request (model, messages, temperature) and,
    from the same world, returns the same name and leaves the same world. *)
Theorem route_independent_of_history {P : Platform} (self : RouterAgent)
    (query : string) (h1 h2 : option (list HistoryMessage)) (w : World) :
  route self query h1 w = route self query h2 w /\
  forall h, exists tail,
    trace (snd (route self query h w))
    = (trace w ++ EvChat (route_request self query) :: tail)%list.
Proof.
  split; [reflexivity |].
  intros h. rewrite route_unfold.
  destruct (ollama_chat (route_request self query) (env w)) as [[raw | e] e']; simpl;
    eexists; reflexivity.
Qed.

(** ** Orchestrator claims *)

(** C7: for a name that is not a key of the agent set, [execute_with_agent]
    returns the error result (agent_used "error", no tools) and leaves the
    world as it was, so no model was invoked; for a known name it is the
    agent's own [execute] with the name attached, whatever the router is. *)
Theorem execute_with_agent_bypasses_router {P : Platform} (self : AgentManager)
    (agent_name query : string) (history : option (list HistoryMessage)) (w : World) :
  match dict_get agent_name (agents self) with
  | None =>
      ~ In agent_name (dict_keys (agents self)) /\
      execute_with_agent self agent_name query history w
      = (Ok (mkManagerResult ("Error: Agent '" ++ agent_name ++ "' not found") "error" []),
         w)
  | Some agent =>
      In agent_name (dict_keys (agents self)) /\
      execute_with_agent self agent_name query history w
      = (match execute agent query history w with
         | (Ok result, w') =>
             (Ok (mkManagerResult (response result) agent_name (tools_used result)), w')
         | (Raise e, w') => (Raise e, w')
         end) /\
      forall r : RouterAgent,
        execute_with_agent (with_router self r) agent_name query history w
        = execute_with_agent self agent_name query history w
  end.
Proof.
  destruct (dict_get agent_name (agents self)) as [agent |] eqn:Hget.
  - split; [apply dict_get_keys; eauto |].
    split.
    + unfold execute_with_agent, bind. rewrite Hget.
      now destruct (execute agent query history w) as [[result | e] w'].
    + intros r. unfold execute_with_agent, with_router. simpl. reflexivity.
  - split; [now apply dict_get_not_key |].
    unfold execute_with_agent. now rewrite Hget.
Qed.

(** C9: [get_agent_list] returns its listing and leaves the world as it
    was; two calls in a row return the same listing; on a manager built by
    [AgentManager_init] the listing has, in order, one entry per agent with
    its description, model and tool names. *)
Theorem get_agent_list_idempotent {P : Platform} :
  (forall (self : AgentManager) (w : World),
      exists listing,
        get_agent_list self w = (Ok listing, w) /\
        (first <- get_agent_list self ;;
         second <- get_agent_list self ;;
         ret (first, second)) w = (Ok (listing, listing), w)) /\
  (forall (config : Config) (tool_registry : ToolRegistry) (w : World),
      let m := AgentManager_init config tool_registry in
      get_agent_list m w
      = (Ok (map (fun '(name, agent) => (name, agent_info agent)) (agents m)), w)).
Proof.
  split.
  - intros self w. eexists. split; reflexivity.
  - intros config tool_registry w m. unfold get_agent_list, ret. do 2 f_equal.
    apply (comprehension_map agent_info [] (agents m)).
    + apply create_agents_NoDup.
    + intros k _ [].
Qed.

(** ** Tool execution *)

Section AgentFacts.
Context {P : Platform}.

Lemma bind_ok {A B} (m : M A) (k : A -> M B) (w w' : World) (a : A) :
  m w = (Ok a, w') -> bind m k w = k a w'.
Proof. intros H. unfold bind. now rewrite H. Qed.

Lemma bind_raise {A B} (m : M A) (k : A -> M B) (w w' : World) (e : PyExn) :
  m w = (Raise e, w') -> bind m k w = (Raise e, w').
Proof. intros H. unfold bind. now rewrite H. Qed.

Lemma grows_call_tool (tool_name : JSON) (tool_func : option ToolFn) (params : JSON) :
  grows (call_tool tool_name tool_func params).
Proof.
  unfold call_tool. destruct tool_func as [f |]; [| auto with grows].
  destruct params; auto with grows.
  intros w. exists [EvTool tool_name fields].
  now destruct (f fields (env w)).
Qed.

Lemma grows_execute_tool (self : Agent) (tool_call : JSON) :
  grows (_execute_tool self tool_call).
Proof.
  unfold _execute_tool.
  repeat (apply grows_bind; [auto with grows | intros ?]).
  destruct (negb _); [auto with grows |].
  destruct (negb _); [auto with grows |].
  apply grows_bind; [auto with grows | intros tool_func].
  apply grows_try_except; [apply grows_call_tool | auto with grows].
Qed.

Lemma grows_run_tool_calls (self : Agent) (tool_calls used results : list JSON) :
  grows (run_tool_calls self tool_calls used results).
Proof.
  revert used results.
  induction tool_calls as [| c rest IH]; intros used results; simpl.
  - auto with grows.
  - apply grows_bind; [apply grows_execute_tool | intros result].
    apply grows_bind; [auto with grows | intros name]. apply IH.
Qed.


(** One result and one name are recorded per call. *)
Lemma run_tool_calls_lengths (self : Agent) (tool_calls used results used' results' : list JSON)
    (w w' : World) :
  run_tool_calls self tool_calls used results w = (Ok (used', results'), w') ->
  length used' = length used + length tool_calls /\
  length results' = length results + length tool_calls.
Proof.
  revert used results w.
  induction tool_calls as [| c rest IH]; intros used results w; simpl.
  - unfold ret. intros [= <- <- <-]. lia.
  - unfold bind at 1.
    destruct (_execute_tool self c w) as [[result | e] w1]; [| discriminate].
    unfold bind at 1. unfold lift.
    destruct (py_subscript c "tool") as [name | e]; [| discriminate].
    intros H. apply IH in H. rewrite !length_app in H. simpl in H. lia.
Qed.

(** A call whose tool name the registry does not hold is answered with a
    failure; the world, trace included, is untouched. *)
Lemma execute_tool_not_registered (self : Agent) (fields : list (string * JSON))
    (tool_name : JSON) (w : World) :
  dict_get "tool" fields = Some tool_name ->
  has_tool (tool_registry self) tool_name = Ok false ->
  _execute_tool self (JObj fields) w
  = (Ok (failure ("Tool " ++ py_str tool_name ++ " not found")), w).
Proof.
  intros Hname Hreg. unfold _execute_tool, bind, lift, ret. simpl.
  now rewrite Hname, Hreg.
Qed.

(** A registered tool that is not on the agent's list is answered with a
    failure as well, and nothing is invoked. *)
Lemma execute_tool_not_allowed (self : Agent) (fields : list (string * JSON))
    (tool_name : JSON) (w : World) :
  dict_get "tool" fields = Some tool_name ->
  has_tool (tool_registry self) tool_name = Ok true ->
  name_in tool_name (tool_names self) = false ->
  _execute_tool self (JObj fields) w
  = (Ok (failure ("Tool " ++ py_str tool_name ++ " not available to this agent")), w).
Proof.
  intros Hname Hreg Hallow. unfold _execute_tool, bind, lift, ret. simpl.
  now rewrite Hname, Hreg, Hallow.
Qed.

(** In the loop, a refused call still leaves its name and its failure. *)
Lemma run_tool_calls_refused (self : Agent) (fields : list (string * JSON))
    (tool_name : JSON) (rest used results : list JSON) (w : World) :
  dict_get "tool" fields = Some tool_name ->
  has_tool (tool_registry self) tool_name = Ok false \/
  (has_tool (tool_registry self) tool_name = Ok true /\
   name_in tool_name (tool_names self) = false) ->
  exists error,
    run_tool_calls self (JObj fields :: rest) used results w
    = run_tool_calls self rest (used ++ [tool_name]) (results ++ [failure error]) w.
Proof.
  intros Hname Hrefused.
  assert (Hexec : exists error, _execute_tool self (JObj fields) w = (Ok (failure error), w)).
  { destruct Hrefused as [Hreg | [Hreg Hallow]]; eexists.
    - exact (execute_tool_not_registered _ _ _ _ Hname Hreg).
    - exact (execute_tool_not_allowed _ _ _ _ Hname Hreg Hallow). }
  destruct Hexec as [error Hexec]. exists error.
  simpl. rewrite (bind_ok _ _ _ _ _ Hexec).
  unfold bind, lift. simpl. now rewrite Hname.
Qed.


(** A tool name that is a list or a dict cannot be looked up: [has_tool]
    raises, outside any [try], and [_execute_tool] with it. *)
Lemma execute_tool_unhashable (self : Agent) (fields : list (string * JSON))
    (tool_name : JSON) (w : World) :
  dict_get "tool" fields = Some tool_name ->
  is_unhashable tool_name = true ->
  _execute_tool self (JObj fields) w = (fault (Unhashable tool_name), w).
Proof.
  intros Hname Hun.
  assert (Hhas : has_tool (tool_registry self) tool_name = fault (Unhashable tool_name))
    by (destruct tool_name; try discriminate; reflexivity).
  unfold _execute_tool, bind, lift. simpl. now rewrite Hname, Hhas.
Qed.


End AgentFacts.

(** ** Extraction and the two passes *)

Section ExecuteFacts.
Context {P : Platform}.


(** A body that parses to a number, a boolean or [None] stops extraction
    with the interpreter's [TypeError]. *)
Lemma extract_from_matches_scalar (pre post : list string) (m : string) (v : JSON)
    (acc : list JSON) :
  Forall object_or_garbage pre ->
  json_loads (strip m) = Some v ->
  is_scalar v = true ->
  extract_from_matches (pre ++ m :: post) acc = fault (NotAContainer v).
Proof.
  intros Hpre Hm Hv. revert acc.
  induction Hpre as [| p pre Hp _ IH]; intros acc; simpl.
  - rewrite Hm. now destruct v.
  - unfold object_or_garbage in Hp.
    destruct (json_loads (strip p)) as [[| | | | | |fields] |]; try contradiction.
    + simpl. destruct (dict_has "tool" fields); apply IH.
    + apply IH.
Qed.

Lemma history_window_suffix (h : list HistoryMessage) :
  exists dropped window,
    h = (dropped ++ window)%list /\
    length window = Nat.min (length h) 10 /\
    history_window (Some h) = map as_message window.
Proof.
  exists (firstn (length h - 10) h), (skipn (length h - 10) h).
  split; [now rewrite firstn_skipn |].
  split; [rewrite length_skipn; lia |].
  destruct h; reflexivity.
Qed.

(** The first thing [execute] does is the model call on the first-pass
    messages; whatever follows only adds to the trace. *)
Lemma execute_trace_first (self : Agent) (prompt : string)
    (history : option (list HistoryMessage)) (w : World) :
  exists later,
    trace (snd (execute self prompt history w))
    = (trace w ++ EvChat (first_request self prompt history) :: later)%list.
Proof.
  unfold execute, first_request.
  match goal with |- context [bind (chat ?r) ?k] => set (req := r); set (rest := k) end.
  assert (Hrest : forall a, grows (rest a)).
  { intros a. unfold rest.
    apply grows_bind; [auto with grows | intros calls].
    destruct calls as [| c cs]; [auto with grows |].
    apply grows_bind; [apply grows_run_tool_calls | intros [used results]].
    destruct results; [auto with grows |].
    apply grows_bind; auto with grows. }
  unfold bind at 1. rewrite chat_unfold.
  destruct (ollama_chat req (env w)) as [[a | e] e1]; simpl.
  - destruct (Hrest a (mkWorld e1 (trace w ++ [EvChat req]))) as [later Hlater].
    simpl in Hlater. rewrite Hlater. exists later. now rewrite <- app_assoc.
  - now exists [].
Qed.

(** No tool call extracted: the primary response is the answer and the
    first model call is the only one. *)
Lemma execute_no_tool_calls (self : Agent) (prompt : string)
    (history : option (list HistoryMessage)) (w : World) (a : string) (e1 : Env) :
  ollama_chat (first_request self prompt history) (env w) = (Ok a, e1) ->
  _extract_tool_calls a = Ok [] ->
  execute self prompt history w
  = (Ok (mkExecResult a []),
     mkWorld e1 (trace w ++ [EvChat (first_request self prompt history)])).
Proof.
  intros Hchat Hextract. unfold execute, bind at 1.
  fold (first_request self prompt history).
  rewrite chat_unfold, Hchat. simpl.
  unfold bind, lift. now rewrite Hextract.
Qed.

(** One call or more extracted and each of them answered: the synthesis
    request is sent from the world the tools left, and its text is the
    answer. *)
Lemma execute_two_pass (self : Agent) (prompt : string)
    (history : option (list HistoryMessage)) (w w2 : World) (a : string) (e1 : Env)
    (calls used results : list JSON) :
  ollama_chat (first_request self prompt history) (env w) = (Ok a, e1) ->
  _extract_tool_calls a = Ok calls ->
  calls <> [] ->
  run_tool_calls self calls [] []
    (mkWorld e1 (trace w ++ [EvChat (first_request self prompt history)]))
    = (Ok (used, results), w2) ->
  let req2 := synthesis_request self prompt history a results in
  execute self prompt history w
  = match ollama_chat req2 (env w2) with
    | (Ok text, e3) => (Ok (mkExecResult text used), mkWorld e3 (trace w2 ++ [EvChat req2]))
    | (Raise e, e3) => (Raise e, mkWorld e3 (trace w2 ++ [EvChat req2]))
    end.
Proof.
  intros Hchat Hextract Hne Hrun req2. unfold execute, bind at 1.
  fold (first_request self prompt history).
  rewrite chat_unfold, Hchat. simpl.
  unfold bind at 1. unfold lift at 1. rewrite Hextract.
  destruct calls as [| c cs]; [congruence |].
  unfold bind at 1. rewrite Hrun.
  apply run_tool_calls_lengths in Hrun. simpl in Hrun.
  destruct results as [| r rs]; [simpl in Hrun; lia |].
  unfold bind. fold (synthesis_request self prompt history a (r :: rs)). fold req2.
  rewrite chat_unfold.
  now destruct (ollama_chat req2 (env w2)) as [[text | e] e3].
Qed.

End ExecuteFacts.

(** ** Agent claims *)

(** The two ways the first call alone decides the outcome. *)

Section FirstCallFacts.
Context {P : Platform}.

Lemma findall_without_tag (s : string) :
  is_substring fence_open s = false -> findall_from 0 s = [].
Proof.
  induction s as [| c s IH]; intros Hsub; [reflexivity |].
  cbn [is_substring] in Hsub.
  destruct (String.prefix fence_open (String c s)) eqn:Hpre; [discriminate |].
  cbn [findall_from]. unfold match_at. rewrite Hpre. now apply IH.
Qed.

Lemma execute_first_call_fails (self : Agent) (prompt : string)
    (history : option (list HistoryMessage)) (w : World) (e : PyExn) (e1 : Env) :
  ollama_chat (first_request self prompt history) (env w) = (Raise e, e1) ->
  execute self prompt history w
  = (Raise e, mkWorld e1 (trace w ++ [EvChat (first_request self prompt history)])).
Proof.
  intros Hchat. unfold execute, bind at 1.
  fold (first_request self prompt history).
  now rewrite chat_unfold, Hchat.
Qed.

Lemma extract_without_tag (a : string) :
  is_substring fence_open a = false -> _extract_tool_calls a = Ok [].
Proof.
  intros Hsub. unfold _extract_tool_calls, findall_tool_blocks.
  now rewrite (findall_without_tag a Hsub).
Qed.

End FirstCallFacts.

(** C6: the messages of the first model call of [execute] are the system
    prompt, then the last min(n, 10) entries of an n-entry history in
    their order (the older ones dropped), then the query as a user turn;
    with 15 entries, 5 are dropped and 10 are sent.  That request is what
    the model backend is applied to, in the world [execute] starts from:
    it is the first event of the trace, an exception the backend raises
    on it is the exception of [execute], and a reply to it that holds no
    tool tag is the answer of [execute]. *)
Theorem execute_first_request_window {P : Platform} (self : Agent) (prompt : string)
    (history : option (list HistoryMessage)) (w : World) :
  let h := default [] history in
  let req := first_request self prompt history in
  exists dropped window later,
    h = (dropped ++ window)%list /\
    length window = Nat.min (length h) 10 /\
    req_messages req
    = (mkMessage "system" (_build_system_prompt self)
         :: map as_message window ++ [mkMessage "user" prompt])%list /\
    trace (snd (execute self prompt history w))
    = (trace w ++ EvChat req :: later)%list /\
    (length h = 15 -> length window = 10 /\ length dropped = 5) /\
    (forall e e1,
        ollama_chat req (env w) = (Raise e, e1) ->
        execute self prompt history w
        = (Raise e, mkWorld e1 (trace w ++ [EvChat req]))) /\
    (forall a e1,
        ollama_chat req (env w) = (Ok a, e1) ->
        is_substring fence_open a = false ->
        execute self prompt history w
        = (Ok (mkExecResult a []), mkWorld e1 (trace w ++ [EvChat req]))).
Proof.
  intros h req.
  destruct (history_window_suffix h) as (dropped & window & Hsplit & Hlen & Hwin).
  destruct (execute_trace_first self prompt history w) as [later Hlater].
  exists dropped, window, later.
  split; [exact Hsplit |]. split; [exact Hlen |].
  split; [| split; [exact Hlater | split; [| split]]].
  - simpl. unfold first_pass_messages. simpl. do 2 f_equal.
    rewrite <- Hwin. unfold h. now destruct history as [[| ? ?] |].
  - intros H15. assert (Hsum : length h = length dropped + length window)
      by (rewrite Hsplit at 1; apply length_app).
    lia.
  - intros e e1 Hchat. now apply execute_first_call_fails.
  - intros a e1 Hchat Hsub.
    apply execute_no_tool_calls; [exact Hchat | now apply extract_without_tag].
Qed.

Lemma execute_first_request_window_witness :
  let history := Some (map (fun n => mkHistoryMessage "user" (str_of_nat n) None [] "")
                         (seq 1 15)) in
  req_messages (first_request file_manager "next" history)
  = (mkMessage "system" (_build_system_prompt file_manager)
       :: map (fun n => mkMessage "user" (str_of_nat n)) (seq 6 10)
       ++ [mkMessage "user" "next"])%list /\
  execute file_manager "next" history (scripted_world [Ok "Sixteen."])
  = (Ok (mkExecResult "Sixteen." []),
     mkWorld (mkScriptEnv [] []) [EvChat (first_request file_manager "next" history)]) /\
  execute file_manager "next" history (scripted_world [])
  = (Raise (mkExn RuntimeFailure "backend unavailable"),
     mkWorld (mkScriptEnv [] []) [EvChat (first_request file_manager "next" history)]).
Proof.
  intros history. split; [reflexivity |].
  split.
  - destruct (execute_first_request_window (P := scripted) file_manager "next" history
                (scripted_world [Ok "Sixteen."]))
      as (_ & _ & _ & _ & _ & _ & _ & _ & _ & Hplain).
    exact (Hplain "Sixteen." (mkScriptEnv [] []) eq_refl eq_refl).
  - destruct (execute_first_request_window (P := scripted) file_manager "next" history
                (scripted_world []))
      as (_ & _ & _ & _ & _ & _ & _ & _ & Hfail & _).
    exact (Hfail (mkExn RuntimeFailure "backend unavailable") (mkScriptEnv [] [])
             eq_refl).
Defined.



(** C2, at the input where the code leaves it: a call whose tool name is a
    list or a dict, hence no registered tool, is not answered with a
    failure result; [has_tool] raises, and so do [_execute_tool] and the
    loop of [execute], before the name or any result is recorded. *)
Theorem execute_tool_unhashable_name_raises {P : Platform} (self : Agent)
    (fields : list (string * JSON)) (tool_name : JSON) (rest used results : list JSON)
    (w : World) :
  dict_get "tool" fields = Some tool_name ->
  is_unhashable tool_name = true ->
  has_tool (tool_registry self) tool_name = fault (Unhashable tool_name) /\
  _execute_tool self (JObj fields) w = (fault (Unhashable tool_name), w) /\
  run_tool_calls self (JObj fields :: rest) used results w
  = (fault (Unhashable tool_name), w).
Proof.
  intros Hname Hun.
  pose proof (execute_tool_unhashable self fields tool_name w Hname Hun) as Hexec.
  split; [destruct tool_name; try discriminate; reflexivity |].
  split; [exact Hexec |].
  simpl. now rewrite (bind_raise _ _ _ _ _ Hexec).
Qed.

Lemma execute_tool_unhashable_name_raises_witness :
  _execute_tool file_manager nested_call (scripted_world [])
  = (Raise (mkExn TypeError "unhashable type"), scripted_world []) /\
  run_tool_calls file_manager [nested_call; write_call] [] [] (scripted_world [])
  = (Raise (mkExn TypeError "unhashable type"), scripted_world []).
Proof.
  pose proof (execute_tool_unhashable_name_raises (P := scripted) file_manager
                [("tool", JObj [("name", JStr "write_file")])] (JObj [("name", JStr "write_file")])
                [write_call] [] [] (scripted_world []) eq_refl eq_refl) as H.
  split; [exact (proj1 (proj2 H)) | exact (proj2 (proj2 H))].
Defined.

(** C3, at the input where the code leaves it: a tool call has been
    extracted from the primary response, its tool name is a list or a
    dict, and [execute] raises after the first model call; no second
    call is made and no response is returned. *)
Theorem execute_aborts_before_synthesis {P : Platform} (self : Agent) (prompt : string)
    (history : option (list HistoryMessage)) (w : World) (a : string) (e1 : Env)
    (fields : list (string * JSON)) (tool_name : JSON) (rest : list JSON) :
  ollama_chat (first_request self prompt history) (env w) = (Ok a, e1) ->
  _extract_tool_calls a = Ok (JObj fields :: rest) ->
  dict_get "tool" fields = Some tool_name ->
  is_unhashable tool_name = true ->
  execute self prompt history w
  = (fault (Unhashable tool_name),
     mkWorld e1 (trace w ++ [EvChat (first_request self prompt history)])).
Proof.
  intros Hchat Hextract Hname Hun. unfold execute, bind at 1.
  fold (first_request self prompt history).
  rewrite chat_unfold, Hchat. simpl.
  unfold bind at 1. unfold lift at 1. rewrite Hextract.
  apply bind_raise. simpl.
  apply bind_raise. now apply execute_tool_unhashable.
Qed.

Lemma execute_aborts_before_synthesis_witness :
  let w := scripted_world [Ok (tool_block nested_call_text); Ok "done"] in
  _extract_tool_calls (tool_block nested_call_text) = Ok [nested_call] /\
  execute file_manager "save it" None w
  = (Raise (mkExn TypeError "unhashable type"),
     mkWorld (mkScriptEnv [Ok "done"] [])
       [EvChat (first_request file_manager "save it" None)]).
Proof.
  split; [vm_compute; reflexivity |].
  apply (execute_aborts_before_synthesis (P := scripted) file_manager "save it" None
           (scripted_world [Ok (tool_block nested_call_text); Ok "done"])
           (tool_block nested_call_text) (mkScriptEnv [Ok "done"] [])
           [("tool", JObj [("name", JStr "write_file")])] (JObj [("name", JStr "write_file")]) []);
    vm_compute; reflexivity.
Defined.

(** C4, at the input where the code leaves it: a tool block whose body
    parses to a number, a boolean or [None] is not skipped;
    [_extract_tool_calls] raises the interpreter's [TypeError] on the
    membership test. *)
Theorem extract_tool_calls_raises_on_scalar {P : Platform} (text : string)
    (pre post : list string) (m : string) (v : JSON) :
  findall_tool_blocks text = (pre ++ m :: post)%list ->
  Forall object_or_garbage pre ->
  json_loads (strip m) = Some v ->
  is_scalar v = true ->
  _extract_tool_calls text = fault (NotAContainer v).
Proof.
  intros Hfind Hpre Hm Hv. unfold _extract_tool_calls. rewrite Hfind.
  now apply extract_from_matches_scalar.
Qed.

Lemma extract_tool_calls_raises_on_scalar_witness :
  findall_tool_blocks (tool_block "5") = ["5"] /\
  _extract_tool_calls (tool_block "5")
  = Raise (mkExn TypeError "argument is not iterable").
Proof.
  split; [vm_compute; reflexivity |].
  apply (extract_tool_calls_raises_on_scalar (P := scripted) (tool_block "5")
           [] [] "5" (JInt 5)); try (vm_compute; reflexivity).
  constructor.
Defined.

(** ** Worked scenarios on the scripted platform *)

(** The pattern gives white space back until a newline can end the
    opening line, so a body made of one space is captured as such. *)
Example findall_backtracks :
  findall_tool_blocks ("```tool" ++ nl ++ " " ++ nl ++ "```") = [" "].
Proof. reflexivity. Qed.

Example findall_in_text_order :
  findall_tool_blocks ("first " ++ tool_block "A" ++ " then " ++ tool_block "B" ++ ".")
  = ["A"; "B"].
Proof. reflexivity. Qed.

(** A tag followed by anything but white space opens no block. *)
Example findall_needs_bare_tag :
  findall_tool_blocks ("```tool x" ++ nl ++ "A" ++ nl ++ "```") = [].
Proof. reflexivity. Qed.

(** One well-formed block and one that is cut short: only the first is
    returned. *)
Example extract_well_formed_and_malformed :
  _extract_tool_calls
    (tool_block write_call_text ++ " and " ++ tool_block truncated_call_text)
  = Ok [write_call].
Proof. vm_compute. reflexivity. Qed.

(** A body that is a JSON string containing the word is kept as a call,
    although it is no object. *)
Example extract_keeps_string_body :
  _extract_tool_calls (tool_block quoted_text) = Ok [JStr "use a tool"].
Proof. vm_compute. reflexivity. Qed.

(** An allowed call: the tool runs once with the parameters given, and the
    answer is the text of the synthesis pass. *)
Example execute_allowed_call :
  let w := scripted_world [Ok ("Saving. " ++ tool_block write_call_text); Ok "Saved a.txt."] in
  fst (execute file_manager "save hi to a.txt" None w)
    = Ok (mkExecResult "Saved a.txt." [JStr "write_file"]) /\
  written (env (snd (execute file_manager "save hi to a.txt" None w)))
    = [[("file_path", JStr "a.txt"); ("content", JStr "hi")]].
Proof. vm_compute. split; reflexivity. Qed.

(** The same call sent to an agent that may not write: nothing is written,
    the name is recorded and the synthesis pass still runs. *)
Example execute_refused_call :
  let general := Agent_init "general" (mkAgentConfig None None None None) scripted_registry in
  let w := scripted_world [Ok (tool_block write_call_text); Ok "I cannot write files."] in
  fst (execute general "save hi to a.txt" None w)
    = Ok (mkExecResult "I cannot write files." [JStr "write_file"]) /\
  written (env (snd (execute general "save hi to a.txt" None w))) = [] /\
  length (trace (snd (execute general "save hi to a.txt" None w))) = 2.
Proof. vm_compute. repeat split; reflexivity. Qed.

(** * Further properties of the module *)

(** ** The tool loop on well-formed calls *)

Section LoopFacts.
Context {P : Platform}.

Lemma emits_ret (Q : Event -> Prop) {A} (a : A) : emits Q (ret a).
Proof. intros w. exists []. simpl. rewrite app_nil_r. now split. Qed.

Lemma emits_lift (Q : Event -> Prop) {A} (o : Outcome A) : emits Q (lift o).
Proof. intros w. exists []. simpl. rewrite app_nil_r. now split. Qed.

Lemma emits_bind (Q : Event -> Prop) {A B} (m : M A) (k : A -> M B) :
  emits Q m -> (forall a, emits Q (k a)) -> emits Q (bind m k).
Proof.
  intros Hm Hk w. unfold bind. destruct (Hm w) as (l1 & Hl1 & HQ1).
  destruct (m w) as [[a | e] w1]; simpl in *.
  - destruct (Hk a w1) as (l2 & Hl2 & HQ2). exists (l1 ++ l2)%list.
    rewrite Hl2, Hl1, app_assoc. split; [reflexivity | now apply Forall_app].
  - now exists l1.
Qed.

Lemma emits_try_except (Q : Event -> Prop) {A} (m : M A) (h : PyExn -> M A) :
  emits Q m -> (forall e, emits Q (h e)) -> emits Q (try_except m h).
Proof.
  intros Hm Hh w. unfold try_except. destruct (Hm w) as (l1 & Hl1 & HQ1).
  destruct (m w) as [[a | e] w1]; simpl in *.
  - now exists l1.
  - destruct (Hh e w1) as (l2 & Hl2 & HQ2). exists (l1 ++ l2)%list.
    rewrite Hl2, Hl1, app_assoc. split; [reflexivity | now apply Forall_app].
Qed.

Lemma emits_call_tool (tool_name : JSON) (tool_func : option ToolFn) (params : JSON) :
  emits is_tool_event (call_tool tool_name tool_func params).
Proof.
  unfold call_tool. destruct tool_func as [f |]; [| apply emits_lift].
  destruct params; try apply emits_lift.
  intros w. exists [EvTool tool_name fields].
  destruct (f fields (env w)); simpl. split; [reflexivity |].
  constructor; [exact I | constructor].
Qed.

Lemma emits_execute_tool (self : Agent) (tool_call : JSON) :
  emits is_tool_event (_execute_tool self tool_call).
Proof.
  unfold _execute_tool.
  repeat (apply emits_bind; [apply emits_lift | intros ?]).
  destruct (negb _); [apply emits_ret |].
  destruct (negb _); [apply emits_ret |].
  apply emits_bind; [apply emits_lift | intros tool_func].
  apply emits_try_except; [apply emits_call_tool | intros e; apply emits_ret].
Qed.

Lemma emits_run_tool_calls (self : Agent) (tool_calls used results : list JSON) :
  emits is_tool_event (run_tool_calls self tool_calls used results).
Proof.
  revert used results.
  induction tool_calls as [| c rest IH]; intros used results; simpl.
  - apply emits_ret.
  - apply emits_bind; [apply emits_execute_tool | intros result].
    apply emits_bind; [apply emits_lift | intros name]. apply IH.
Qed.

Lemma world_eta (w : World) : mkWorld (env w) (trace w ++ []) = w.
Proof. destruct w. simpl. now rewrite app_nil_r. Qed.

(** One well-formed call: a result comes back whatever the tool does, and
    the trace grows by the invocation and by nothing else. *)
Lemma execute_tool_well_formed (self : Agent) (tool_call : JSON) (w : World) :
  well_formed_call tool_call = true ->
  exists result env',
    _execute_tool self tool_call w
    = (Ok result, mkWorld env' (trace w ++ invocation_of self tool_call)).
Proof.
  intros Hwf. destruct tool_call as [| | | | | |fields]; try discriminate.
  simpl in Hwf. destruct (dict_get "tool" fields) as [tool_name |] eqn:Hname;
    [| discriminate].
  unfold invocation_of, permitted, tool_of, params_of. rewrite Hname. simpl default.
  unfold _execute_tool, bind, lift. simpl py_get. rewrite Hname.
  destruct (has_tool (tool_registry self) tool_name) as [[|] | e] eqn:Hhas.
  - cbn [negb]. destruct (name_in tool_name (tool_names self)) eqn:Hallow; cbn [negb].
    + destruct tool_name as [| | | |s| |]; try discriminate.
      unfold has_tool in Hhas. injection Hhas as Hhas.
      apply bool_decide_eq_true_1 in Hhas. destruct Hhas as [f Hf].
      unfold get_tool. rewrite Hf. unfold try_except, call_tool.
      destruct (dict_get "params" fields) as [[| | | | | |kwargs] |]; simpl default;
        try (eexists _, (env w); unfold fault; rewrite world_eta; reflexivity).
      * destruct (f kwargs (env w)) as [[result | e] env'];
          eexists _, env'; reflexivity.
      * destruct (f [] (env w)) as [[result | e] env'];
          eexists _, env'; reflexivity.
    + eexists _, (env w). rewrite world_eta. reflexivity.
  - cbn [negb]. eexists _, (env w). rewrite world_eta. reflexivity.
  - exfalso. destruct tool_name; simpl in Hwf; try discriminate;
      unfold has_tool in Hhas; discriminate.
Qed.

Lemma subscript_well_formed (tool_call : JSON) :
  well_formed_call tool_call = true ->
  py_subscript tool_call "tool" = Ok (tool_of tool_call).
Proof.
  destruct tool_call as [| | | | | |fields]; try discriminate. simpl.
  now destruct (dict_get "tool" fields).
Qed.

(** The loop on well-formed calls, with what it returns and what it
    leaves in the trace. *)
Lemma run_tool_calls_well_formed (self : Agent) (tool_calls used results : list JSON)
    (w : World) :
  Forall (fun c => well_formed_call c = true) tool_calls ->
  exists answers env',
    run_tool_calls self tool_calls used results w
    = (Ok ((used ++ map tool_of tool_calls)%list, (results ++ answers)%list),
       mkWorld env' (trace w ++ flat_map (invocation_of self) tool_calls)) /\
    length answers = length tool_calls.
Proof.
  intros Hall. revert used results w.
  induction Hall as [| c rest Hc _ IH]; intros used results w; simpl.
  - exists [], (env w). destruct w as [e t]. unfold ret. simpl. rewrite !app_nil_r. now split.
  - destruct (execute_tool_well_formed self c w Hc) as (result & env1 & Hexec).
    rewrite (bind_ok _ _ _ _ _ Hexec).
    unfold bind at 1. unfold lift at 1. rewrite (subscript_well_formed c Hc).
    destruct (IH (used ++ [tool_of c])%list (results ++ [result])%list
                (mkWorld env1 (trace w ++ invocation_of self c)))
      as (answers & env2 & Hrun & Hlen).
    exists (result :: answers), env2. split; [| simpl; now rewrite Hlen].
    rewrite Hrun. simpl. now rewrite <- !app_assoc.
Qed.

End LoopFacts.

(** X1: on calls that are dicts with a hashable tool name the loop of
    [execute] always comes back, whatever the tools do: it records the tool
    names in the order of the calls, repetitions included, and one result
    per call. *)
Theorem tool_loop_records_every_call {P : Platform} (self : Agent)
    (tool_calls : list JSON) (w : World) :
  Forall (fun c => well_formed_call c = true) tool_calls ->
  exists tool_results w',
    run_tool_calls self tool_calls [] [] w
    = (Ok (map tool_of tool_calls, tool_results), w') /\
    length tool_results = length tool_calls.
Proof.
  intros Hall.
  destruct (run_tool_calls_well_formed self tool_calls [] [] w Hall)
    as (answers & env' & Hrun & Hlen).
  eexists answers, _. split; [exact Hrun | exact Hlen].
Qed.

Lemma tool_loop_records_every_call_witness :
  exists tool_results w',
    run_tool_calls calendar_agent [event_call; write_call; event_call] [] []
      (scripted_world [])
    = (Ok ([JStr "create_event"; JStr "write_file"; JStr "create_event"], tool_results), w')
    /\ length tool_results = 3.
Proof.
  apply (tool_loop_records_every_call (P := scripted) calendar_agent
           [event_call; write_call; event_call] (scripted_world [])).
  repeat constructor.
Defined.

(** X2: on such calls the tools are invoked in the order of the calls, one
    invocation for each call that names a registered tool on the agent's
    list with a dict of parameters, and none for any other call. *)
Theorem tool_loop_invokes_permitted_in_order {P : Platform} (self : Agent)
    (tool_calls used results : list JSON) (w : World) :
  Forall (fun c => well_formed_call c = true) tool_calls ->
  trace (snd (run_tool_calls self tool_calls used results w))
  = (trace w ++ flat_map (invocation_of self) tool_calls)%list.
Proof.
  intros Hall.
  destruct (run_tool_calls_well_formed self tool_calls used results w Hall)
    as (answers & env' & Hrun & _).
  now rewrite Hrun.
Qed.

Lemma tool_loop_invokes_permitted_in_order_witness :
  trace (snd (run_tool_calls file_manager [event_call; write_call; write_call] [] []
                (scripted_world [])))
  = [EvTool (JStr "write_file") [("file_path", JStr "a.txt"); ("content", JStr "hi")];
     EvTool (JStr "write_file") [("file_path", JStr "a.txt"); ("content", JStr "hi")]].
Proof.
  apply (tool_loop_invokes_permitted_in_order (P := scripted) file_manager
           [event_call; write_call; write_call] [] [] (scripted_world [])).
  repeat constructor.
Defined.

(** ** Single tool calls *)

Section SingleCallFacts.
Context {P : Platform}.

Lemma registered_name (self : Agent) (s : string) (f : ToolFn) :
  tools (tool_registry self) !! s = Some f ->
  has_tool (tool_registry self) (JStr s) = Ok true /\
  get_tool (tool_registry self) (JStr s) = Ok (Some f).
Proof.
  intros Hreg. unfold has_tool, get_tool. rewrite Hreg. split; [| reflexivity].
  now rewrite bool_decide_eq_true_2 by eauto.
Qed.

Lemma execute_tool_allowed_unfold (self : Agent) (fields : list (string * JSON))
    (s : string) (f : ToolFn) (w : World) :
  dict_get "tool" fields = Some (JStr s) ->
  tools (tool_registry self) !! s = Some f ->
  str_in s (tool_names self) = true ->
  _execute_tool self (JObj fields) w
  = try_except (call_tool (JStr s) (Some f) (params_of (JObj fields)))
               (fun e => ret (failure (exn_str e))) w.
Proof.
  intros Hname Hreg Hallow. destruct (registered_name self s f Hreg) as [Hhas Hfun].
  unfold _execute_tool, bind, lift. simpl py_get. rewrite Hname, Hhas.
  cbn [negb name_in]. rewrite Hallow, Hfun. reflexivity.
Qed.

End SingleCallFacts.



(** X4: a call to a registered tool on the agent's list, with a dict of
    parameters or none at all, invokes the tool once with exactly those
    keyword arguments (none when "params" is absent), and what the tool
    returns is handed back unchanged. *)
Theorem allowed_call_returns_tool_result {P : Platform} (self : Agent)
    (fields kwargs : list (string * JSON)) (s : string) (f : ToolFn) (result : JSON)
    (env' : Env) (w : World) :
  dict_get "tool" fields = Some (JStr s) ->
  tools (tool_registry self) !! s = Some f ->
  str_in s (tool_names self) = true ->
  params_of (JObj fields) = JObj kwargs ->
  f kwargs (env w) = (Ok result, env') ->
  _execute_tool self (JObj fields) w
  = (Ok result, mkWorld env' (trace w ++ [EvTool (JStr s) kwargs])) /\
  (dict_get "params" fields = None -> kwargs = []).
Proof.
  intros Hname Hreg Hallow Hparams Hrun. split.
  - rewrite (execute_tool_allowed_unfold self fields s f w Hname Hreg Hallow), Hparams.
    unfold try_except, call_tool. now rewrite Hrun.
  - intros Hnone. simpl in Hparams. rewrite Hnone in Hparams. simpl in Hparams.
    congruence.
Qed.

Lemma allowed_call_returns_tool_result_witness :
  _execute_tool file_manager (JObj [("tool", JStr "write_file")]) (scripted_world [])
  = (Ok (JObj [("success", JBool true); ("mode", JStr "written")]),
     mkWorld (mkScriptEnv [] [[]]) [EvTool (JStr "write_file") []]).
Proof.
  exact (proj1 (allowed_call_returns_tool_result (P := scripted) file_manager
                  [("tool", JStr "write_file")] [] "write_file" write_file_tool
                  (JObj [("success", JBool true); ("mode", JStr "written")])
                  (mkScriptEnv [] [[]]) (scripted_world [])
                  eq_refl eq_refl eq_refl eq_refl eq_refl)).
Defined.



(** ** The two passes of [execute] *)

(** X6: whatever the model answers and whatever the tools do, [execute]
    calls the model first, then invokes tools only, and calls the model at
    most once more, as its last act, with the agent's model and
    temperature. *)
Theorem execute_calls_model_at_most_twice {P : Platform} (self : Agent) (prompt : string)
    (history : option (list HistoryMessage)) (w : World) :
  exists tool_events tail,
    trace (snd (execute self prompt history w))
    = (trace w ++ EvChat (first_request self prompt history) :: tool_events ++ tail)%list /\
    Forall is_tool_event tool_events /\
    (tail = [] \/
     exists req2, tail = [EvChat req2] /\
                  req_model req2 = model self /\ req_temperature req2 = temperature self).
Proof.
  unfold execute, bind at 1. fold (first_request self prompt history).
  rewrite chat_unfold.
  destruct (ollama_chat (first_request self prompt history) (env w)) as [[a | e] e1];
    cbn [fst snd].
  2: { exists [], []. simpl. repeat split; auto. }
  unfold bind at 1. unfold lift at 1.
  destruct (_extract_tool_calls a) as [[| c cs] | e].
  1, 3: exists [], []; simpl; repeat split; auto.
  unfold bind at 1.
  destruct (emits_run_tool_calls self (c :: cs) [] []
              (mkWorld e1 (trace w ++ [EvChat (first_request self prompt history)])))
    as (later & Hlater & Htools).
  destruct (run_tool_calls self (c :: cs) [] [] _) as [[[used results] | e] w2];
    cbn [snd trace] in Hlater.
  2: { exists later, []. cbn [snd]. rewrite Hlater, app_nil_r, <- app_assoc.
       repeat split; auto. }
  destruct results as [| r rs].
  { exists later, []. unfold ret. cbn [snd]. rewrite Hlater, app_nil_r, <- app_assoc.
    repeat split; auto. }
  unfold bind. rewrite chat_unfold.
  match goal with |- context [EvChat ?r :: nil] =>
    match r with
    | first_request _ _ _ => fail 1
    | _ => set (req2 := r)
    end
  end.
  exists later, [EvChat req2].
  destruct (ollama_chat req2 (env w2)) as [[text | e] e3]; cbn [snd trace fst];
    rewrite Hlater, <- !app_assoc; (split; [reflexivity |]); (split; [exact Htools |]);
    right; exists req2; repeat split; reflexivity.
Qed.

(** X7: a failure of the model is not caught in [execute].  If the first
    call raises, [execute] raises the same exception and no tool has run;
    if the synthesis call raises, [execute] raises it from the world the
    tools have left, their effects included. *)
Theorem execute_propagates_model_failure {P : Platform} (self : Agent) (prompt : string)
    (history : option (list HistoryMessage)) (w : World) :
  (forall e e1,
      ollama_chat (first_request self prompt history) (env w) = (Raise e, e1) ->
      execute self prompt history w
      = (Raise e, mkWorld e1 (trace w ++ [EvChat (first_request self prompt history)]))) /\
  (forall a e1 calls used results w2 e e3,
      ollama_chat (first_request self prompt history) (env w) = (Ok a, e1) ->
      _extract_tool_calls a = Ok calls ->
      calls <> [] ->
      run_tool_calls self calls [] []
        (mkWorld e1 (trace w ++ [EvChat (first_request self prompt history)]))
        = (Ok (used, results), w2) ->
      ollama_chat (synthesis_request self prompt history a results) (env w2)
        = (Raise e, e3) ->
      execute self prompt history w
      = (Raise e,
         mkWorld e3 (trace w2 ++ [EvChat (synthesis_request self prompt history a results)]))).
Proof.
  split.
  - intros e e1. apply execute_first_call_fails.
  - intros a e1 calls used results w2 e e3 Hchat Hextract Hne Hrun Hsyn.
    rewrite (execute_two_pass self prompt history w w2 a e1 calls used results
               Hchat Hextract Hne Hrun).
    now rewrite Hsyn.
Qed.

Lemma execute_propagates_model_failure_witness :
  let w := scripted_world [Ok (tool_block write_call_text)] in
  execute file_manager "save hi" None w
  = (Raise (mkExn RuntimeFailure "backend unavailable"),
     mkWorld (mkScriptEnv [] [[("file_path", JStr "a.txt"); ("content", JStr "hi")]])
       [EvChat (first_request file_manager "save hi" None);
        EvTool (JStr "write_file") [("file_path", JStr "a.txt"); ("content", JStr "hi")];
        EvChat (synthesis_request file_manager "save hi" None (tool_block write_call_text)
                  [JObj [("success", JBool true); ("mode", JStr "written")]])]).
Proof.
  exact (proj2 (execute_propagates_model_failure (P := scripted) file_manager "save hi" None
                  (scripted_world [Ok (tool_block write_call_text)]))
           (tool_block write_call_text) (mkScriptEnv [] []) [write_call]
           [JStr "write_file"] [JObj [("success", JBool true); ("mode", JStr "written")]]
           (mkWorld (mkScriptEnv [] [[("file_path", JStr "a.txt"); ("content", JStr "hi")]])
              [EvChat (first_request file_manager "save hi" None);
               EvTool (JStr "write_file")
                 [("file_path", JStr "a.txt"); ("content", JStr "hi")]])
           (mkExn RuntimeFailure "backend unavailable")
           (mkScriptEnv [] [[("file_path", JStr "a.txt"); ("content", JStr "hi")]])
           eq_refl eq_refl ltac:(discriminate) eq_refl eq_refl).
Defined.

(** X8: a primary response that does not contain the opening tag of a tool
    block yields no tool call: [execute] returns it unchanged after the
    one model call, and no tool is invoked. *)
Theorem response_without_tag_returned_verbatim {P : Platform} (self : Agent)
    (prompt : string) (history : option (list HistoryMessage)) (w : World)
    (a : string) (e1 : Env) :
  ollama_chat (first_request self prompt history) (env w) = (Ok a, e1) ->
  is_substring fence_open a = false ->
  _extract_tool_calls a = Ok [] /\
  execute self prompt history w
  = (Ok (mkExecResult a []),
     mkWorld e1 (trace w ++ [EvChat (first_request self prompt history)])).
Proof.
  intros Hchat Hsub.
  assert (Hextract : _extract_tool_calls a = Ok []).
  { unfold _extract_tool_calls, findall_tool_blocks.
    now rewrite (findall_without_tag a Hsub). }
  split; [exact Hextract |].
  now apply execute_no_tool_calls.
Qed.

Lemma response_without_tag_returned_verbatim_witness :
  let w := scripted_world [Ok "Use ```python blocks, not tools."] in
  _extract_tool_calls "Use ```python blocks, not tools." = Ok [] /\
  execute file_manager "how?" None w
  = (Ok (mkExecResult "Use ```python blocks, not tools." []),
     mkWorld (mkScriptEnv [] []) [EvChat (first_request file_manager "how?" None)]).
Proof.
  apply (response_without_tag_returned_verbatim (P := scripted) file_manager "how?" None
           (scripted_world [Ok "Use ```python blocks, not tools."])
           "Use ```python blocks, not tools." (mkScriptEnv [] []));
    reflexivity.
Defined.



(** ** Strings and the tool-block pattern *)

Section StringFacts.


Lemma str_cons_app (x : ascii) (a b : string) : String x a ++ b = String x (a ++ b).
Proof. reflexivity. Qed.

Lemma str_app_assoc (a b c : string) : (a ++ b) ++ c = a ++ (b ++ c).
Proof.
  induction a as [| x a IH]; [reflexivity |].
  rewrite !str_cons_app. now rewrite IH.
Qed.

Lemma str_app_nil_r (a : string) : a ++ "" = a.
Proof.
  induction a as [| x a IH]; [reflexivity |].
  rewrite str_cons_app. now rewrite IH.
Qed.

Lemma str_length_app (a b : string) :
  String.length (a ++ b) = String.length a + String.length b.
Proof.
  induction a as [| x a IH]; [reflexivity |].
  rewrite str_cons_app. cbn [String.length]. now rewrite IH.
Qed.

Lemma prefix_app (p rest : string) : String.prefix p (p ++ rest) = true.
Proof.
  induction p as [| x p IH]; [now destruct rest |].
  rewrite str_cons_app. cbn [String.prefix].
  destruct (ascii_dec x x); [exact IH | congruence].
Qed.

Lemma prefix_split (p s : string) :
  String.prefix p s = true -> exists rest, s = p ++ rest.
Proof.
  revert s. induction p as [| x p IH]; intros s H.
  - now exists s.
  - destruct s as [| y s]; cbn [String.prefix] in H; [discriminate |].
    destruct (ascii_dec x y) as [-> | _]; [| discriminate].
    destruct (IH s H) as [rest ->]. now exists rest.
Qed.

Lemma prefix_app_l (p s b : string) :
  String.prefix p s = true -> String.prefix p (s ++ b) = true.
Proof.
  intros H. destruct (prefix_split p s H) as [rest ->].
  rewrite str_app_assoc. apply prefix_app.
Qed.

Lemma is_substring_eq (x s : string) :
  is_substring x s =
  if String.prefix x s then true
  else match s with
       | EmptyString => false
       | String _ s' => is_substring x s'
       end.
Proof. destruct s; reflexivity. Qed.

Lemma is_substring_app_r (x a s : string) :
  is_substring x s = true -> is_substring x (a ++ s) = true.
Proof.
  intros H. induction a as [| c a IH]; [exact H |].
  rewrite is_substring_eq, str_cons_app. rewrite IH. now destruct (String.prefix _ _).
Qed.

Lemma is_substring_app_l (x s b : string) :
  is_substring x s = true -> is_substring x (s ++ b) = true.
Proof.
  induction s as [| c s IH]; intros H; rewrite is_substring_eq in H.
  - destruct (String.prefix x "") eqn:Hp; [| discriminate].
    rewrite is_substring_eq. now rewrite (prefix_app_l x "" b Hp).
  - rewrite is_substring_eq.
    destruct (String.prefix x (String c s)) eqn:Hp.
    + now rewrite (prefix_app_l x (String c s) b Hp).
    + rewrite str_cons_app. rewrite (IH H).
      now destruct (String.prefix x (String c (s ++ b))).
Qed.

Lemma is_substring_mid (x a b : string) : is_substring x (a ++ x ++ b) = true.
Proof.
  apply is_substring_app_r. rewrite is_substring_eq. now rewrite prefix_app.
Qed.




Lemma is_substring_suffix (x a : string) : is_substring x (a ++ x) = true.
Proof.
  apply is_substring_app_r. rewrite is_substring_eq.
  pose proof (prefix_app x "") as H. rewrite str_app_nil_r in H. now rewrite H.
Qed.



End StringFacts.



Section ExtractionFacts.
Context {P : Platform}.

Lemma extract_from_matches_kept (matches : list string) (acc calls : list JSON) :
  extract_from_matches matches acc = Ok calls ->
  exists added,
    calls = (acc ++ added)%list /\
    Forall (fun c => py_contains "tool" c = Ok true) added /\
    length added <= length matches.
Proof.
  revert acc. induction matches as [| m rest IH]; intros acc H; simpl in H.
  - injection H as <-. exists []. rewrite app_nil_r. repeat split; auto.
  - destruct (json_loads (strip m)) as [tool_data |].
    + destruct (py_contains "tool" tool_data) as [[|] | e] eqn:Hin; [| | discriminate].
      * destruct (IH _ H) as (added & -> & Hall & Hlen).
        exists (tool_data :: added). rewrite <- app_assoc. simpl.
        repeat split; [now constructor | lia].
      * destruct (IH _ H) as (added & -> & Hall & Hlen).
        exists added. simpl. repeat split; [assumption | lia].
    + destruct (IH _ H) as (added & -> & Hall & Hlen).
      exists added. simpl. repeat split; [assumption | lia].
Qed.


End ExtractionFacts.



(** X12: whatever the bodies are, a value that [_extract_tool_calls]
    returns has passed the membership test for "tool" (a dict with that
    key, a list with that element or a string containing it), and there
    are no more values than blocks. *)
Theorem extracted_calls_passed_membership {P : Platform} (text : string)
    (calls : list JSON) :
  _extract_tool_calls text = Ok calls ->
  Forall (fun c => py_contains "tool" c = Ok true) calls /\
  length calls <= length (findall_tool_blocks text).
Proof.
  intros H. destruct (extract_from_matches_kept _ [] calls H) as (added & -> & Hall & Hlen).
  now split.
Qed.

Lemma extracted_calls_passed_membership_witness :
  Forall (fun c => py_contains "tool" c = Ok true) [JStr "use a tool"; write_call] /\
  length [JStr "use a tool"; write_call]
    <= length (findall_tool_blocks (tool_block quoted_text ++ tool_block write_call_text)).
Proof.
  apply (extracted_calls_passed_membership (P := scripted)
           (tool_block quoted_text ++ tool_block write_call_text)).
  vm_compute. reflexivity.
Defined.

(** ** The prompts *)

Section PromptFacts.
Context {P : Platform}.



Lemma synthesis_lines_keep (y : string) (results : list JSON) (i : nat) (p : string) :
  is_substring y p = true -> is_substring y (synthesis_lines i results p) = true.
Proof.
  revert i p. induction results as [| r rs IH]; intros i p H; simpl; [exact H |].
  apply IH. now apply is_substring_app_l.
Qed.

Lemma synthesis_lines_numbered (results : list JSON) (i k : nat) (r : JSON) (p : string) :
  nth_error results k = Some r ->
  is_substring (result_line (i + k) r) (synthesis_lines i results p) = true.
Proof.
  revert i k p. induction results as [| r0 rs IH]; intros i k p Hk.
  - now destruct k.
  - destruct k as [| k]; simpl in Hk |- *.
    + injection Hk as ->. rewrite Nat.add_0_r.
      apply synthesis_lines_keep. apply is_substring_suffix.
    + replace (i + S k) with (S i + k) by lia. now apply IH.
Qed.

End PromptFacts.


(** X14: the synthesis prompt contains the user's original request and,
    for every tool result, a line "Tool i: " followed by its JSON dump,
    where i counts the results from 1 in their order. *)
Theorem synthesis_prompt_embeds_request_and_results {P : Platform}
    (original_prompt : string) (tool_results : list JSON) :
  is_substring ("User request: " ++ original_prompt ++ nl)
    (_build_synthesis_prompt original_prompt tool_results) = true /\
  forall k result,
    nth_error tool_results k = Some result ->
    is_substring (nl ++ "Tool " ++ str_of_nat (S k) ++ ": " ++ json_dumps result ++ nl)
      (_build_synthesis_prompt original_prompt tool_results) = true.
Proof.
  unfold _build_synthesis_prompt. cbv zeta. split.
  - apply is_substring_app_l. apply synthesis_lines_keep.
    apply is_substring_app_l. apply is_substring_app_r.
    replace ("User request: " ++ original_prompt ++ nl ++ nl)
      with (("User request: " ++ original_prompt ++ nl) ++ nl)
      by (now rewrite !str_app_assoc).
    rewrite is_substring_eq. now rewrite prefix_app.
  - intros k result Hk. apply is_substring_app_l.
    exact (synthesis_lines_numbered tool_results 1 k result _ Hk).
Qed.

(** ** Routing, registry and construction *)

Section RoutingFacts.
Context {P : Platform}.

Lemma lower_char_not_upper (c : ascii) : is_upper (lower_char c) = false.
Proof.
  destruct c as [b0 b1 b2 b3 b4 b5 b6 b7].
  destruct b0, b1, b2, b3, b4, b5, b6, b7; reflexivity.
Qed.

Lemma lower_not_upper (s : string) (c : ascii) :
  In c (list_ascii_of_string (lower s)) -> is_upper c = false.
Proof.
  induction s as [| x s IH]; simpl; [tauto |].
  intros [<- | Hin]; [apply lower_char_not_upper | now apply IH].
Qed.

Lemma clean_selection_not_upper (raw : string) (c : ascii) :
  In c (list_ascii_of_string (clean_selection raw)) -> is_upper c = false.
Proof.
  unfold clean_selection. intros Hin.
  do 3 apply replace_empty_subset in Hin. now apply lower_not_upper in Hin.
Qed.

Lemma comprehension_map_key {V W : Type} (g : string -> V -> W)
    (acc : list (string * W)) (src : list (string * V)) :
  List.NoDup (dict_keys src) ->
  (forall k, In k (dict_keys src) -> ~ In k (dict_keys acc)) ->
  fold_left (fun acc '(k, v) => dict_set k (g k v) acc) src acc
  = (acc ++ map (fun '(k, v) => (k, g k v)) src)%list.
Proof.
  revert acc. induction src as [| [k v] src IH]; simpl; intros acc Hnd Hdisj.
  - now rewrite app_nil_r.
  - inversion Hnd as [| ? ? Hnotin Hnd']; subst.
    rewrite dict_set_fresh by (apply Hdisj; now left).
    rewrite IH; [now rewrite <- app_assoc | assumption |].
    intros x Hx. unfold dict_keys. rewrite map_app, in_app_iff. simpl.
    intros [Hacc | [<- | []]]; [| tauto].
    apply (Hdisj x); [now right | exact Hacc].
Qed.

Lemma dict_get_map {V W : Type} (g : string -> V -> W) (src : list (string * V))
    (k : string) (v : V) :
  dict_get k src = Some v ->
  dict_get k (map (fun '(k, v) => (k, g k v)) src) = Some (g k v).
Proof.
  induction src as [| [k' v'] src IH]; simpl; [discriminate |].
  destruct (String.eqb_spec k k') as [-> | _]; [now intros [= ->] | exact IH].
Qed.

End RoutingFacts.

(** X15: [route] never returns a name that contains an upper-case letter, a
    quote or a period: an agent configured under such a name cannot be
    reached through routing, whatever the model answers. *)
Theorem route_cannot_select_unnormalized_name {P : Platform} (self : RouterAgent)
    (query : string) (history : option (list HistoryMessage)) (w : World)
    (agent_name : string) (c : ascii) :
  In c (list_ascii_of_string agent_name) ->
  quote_or_period c = true \/ is_upper c = true ->
  fst (route self query history w) <> Ok agent_name.
Proof.
  intros Hin Hbad Hroute. rewrite route_unfold in Hroute.
  assert (Hgeneral : agent_name <> "general").
  { intros ->. simpl in Hin.
    repeat (destruct Hin as [<- | Hin]; [destruct Hbad; discriminate |]).
    contradiction. }
  destruct (ollama_chat (route_request self query) (env w)) as [[raw | e] e'];
    simpl in Hroute; injection Hroute as Hname; [| congruence].
  destruct (route_decision_cases (agent_names self) raw) as [[Hd _] | [Hd _]];
    rewrite Hd in Hname; [| congruence].
  subst agent_name. destruct Hbad as [Hq | Hu].
  - now rewrite (clean_selection_chars raw c Hin) in Hq.
  - now rewrite (clean_selection_not_upper raw c Hin) in Hu.
Qed.

Lemma route_cannot_select_unnormalized_name_witness :
  fst (route (mkRouterAgent "gemma2:2b" (3 # 10)%Q ["Calendar"; "general"] [])
         "plan lunch" None (scripted_world [Ok "Calendar"]))
  <> Ok "Calendar" /\
  fst (route (mkRouterAgent "gemma2:2b" (3 # 10)%Q ["Calendar"; "general"] [])
         "plan lunch" None (scripted_world [Ok "Calendar"]))
  = Ok "general".
Proof.
  split; [| reflexivity].
  apply (route_cannot_select_unnormalized_name (P := scripted)
           (mkRouterAgent "gemma2:2b" (3 # 10)%Q ["Calendar"; "general"] [])
           "plan lunch" None (scripted_world [Ok "Calendar"]) "Calendar" "C"%char).
  - left. reflexivity.
  - right. reflexivity.
Defined.

(** X16: [route] never raises and invokes the model exactly once and no
    tool.  When the model call fails it prints one line, "Routing error: "
    followed by the message, and answers "general". *)
Theorem route_makes_one_model_call {P : Platform} (self : RouterAgent) (query : string)
    (history : option (list HistoryMessage)) (w : World) :
  exists selected env' tail,
    route self query history w
    = (Ok selected, mkWorld env' (trace w ++ EvChat (route_request self query) :: tail)) /\
    (tail = [] /\
     (exists raw, ollama_chat (route_request self query) (env w) = (Ok raw, env'))
     \/
     exists e, ollama_chat (route_request self query) (env w) = (Raise e, env') /\
               tail = [EvPrint ("Routing error: " ++ exn_str e)] /\
               selected = "general").
Proof.
  rewrite route_unfold.
  destruct (ollama_chat (route_request self query) (env w)) as [[raw | e] e'].
  - eexists _, e', []. split; [reflexivity |]. left. split; [reflexivity | now exists raw].
  - eexists _, e', _. split; [reflexivity |]. right. exists e. repeat split.
Qed.

(** X17: [has_tool] and [get_tool] agree on every name: the first answers
    True exactly when the second returns a callable, False exactly when
    the second returns None, and both raise on the same names. *)
Theorem has_tool_agrees_with_get_tool {P : Platform} (self : ToolRegistry)
    (tool_name : JSON) :
  (has_tool self tool_name = Ok true <-> exists f, get_tool self tool_name = Ok (Some f)) /\
  (has_tool self tool_name = Ok false <-> get_tool self tool_name = Ok None) /\
  (forall e, has_tool self tool_name = Raise e <-> get_tool self tool_name = Raise e).
Proof.
  unfold has_tool, get_tool.
  destruct tool_name as [| b | z | printed | s | items | fields];
    try (repeat split; try intros [f Hf]; intros; congruence).
  - destruct (tools self !! s) as [f |] eqn:Hs.
    + rewrite bool_decide_eq_true_2 by eauto.
      repeat split; try intros [g Hg]; intros; try congruence. now exists f.
    + rewrite bool_decide_eq_false_2 by (intros [f Hf]; discriminate).
      repeat split; try intros [g Hg]; intros; congruence.
  - unfold fault. repeat split; try intros [g Hg]; intros; congruence.
  - unfold fault. repeat split; try intros [g Hg]; intros; congruence.
Qed.

(** X18: from a configuration with distinct agent names the manager is
    built with exactly one agent per name, in configuration order, each
    with the manager's registry; the router is given those names and the
    agents' descriptions, and looking a configured name up returns its
    agent. *)
Theorem manager_holds_one_agent_per_name {P : Platform}
    (agent_configs : list (string * AgentConfig)) (router_config : option RouterConfig)
    (tool_registry : ToolRegistry) :
  List.NoDup (dict_keys agent_configs) ->
  let m := AgentManager_init (mkConfig (Some agent_configs) router_config) tool_registry in
  agents m = map (fun '(n, c) => (n, Agent_init n c tool_registry)) agent_configs /\
  agent_names (router m) = dict_keys agent_configs /\
  agent_descriptions (router m)
  = map (fun '(n, c) => (n, default "" (cfg_description c))) agent_configs /\
  forall n c, dict_get n agent_configs = Some c ->
              dict_get n (agents m) = Some (Agent_init n c tool_registry).
Proof.
  intros Hnd m.
  assert (Hagents : agents m
                    = map (fun '(n, c) => (n, Agent_init n c tool_registry)) agent_configs).
  { unfold m, AgentManager_init, create_agents. simpl.
    apply (comprehension_map_key (fun n c => Agent_init n c tool_registry) []
             agent_configs Hnd).
    intros k _ []. }
  assert (Hkeys : dict_keys (agents m) = dict_keys agent_configs).
  { rewrite Hagents. unfold dict_keys. rewrite map_map.
    apply map_ext. now intros [n c]. }
  split; [exact Hagents |]. split; [exact Hkeys |]. split.
  - change (agent_descriptions (router m))
      with (fold_left (fun acc '(name, agent) => dict_set name (description agent) acc)
              (agents m) []).
    rewrite (comprehension_map description [] (agents m));
      [| rewrite Hkeys; exact Hnd | intros k _ []].
    rewrite Hagents. simpl. rewrite map_map. apply map_ext. now intros [n c].
  - intros n c Hget. rewrite Hagents.
    exact (dict_get_map (fun n c => Agent_init n c tool_registry) agent_configs n c Hget).
Qed.

Lemma manager_holds_one_agent_per_name_witness :
  let m := AgentManager_init default_config scripted_registry in
  agent_names (router m)
  = ["general"; "file_manager"; "calendar"; "web_search"; "document_analyst"; "code_helper"]
  /\ dict_get "calendar" (agents m)
     = Some (Agent_init "calendar"
               (mkAgentConfig (Some "ministral:3b")
                  (Some "Calendar management, scheduling, events") (Some (3 # 10)%Q)
                  (Some ["create_event"; "list_events"; "delete_event"]))
               scripted_registry).
Proof.
  pose proof (manager_holds_one_agent_per_name (P := scripted)
                (default [] (cfg_agents default_config)) (cfg_router default_config)
                scripted_registry) as H.
  assert (Hnd : List.NoDup (dict_keys (default [] (cfg_agents default_config)))).
  { repeat (constructor; [simpl; intuition discriminate |]). constructor. }
  destruct (H Hnd) as (_ & Hnames & _ & Hget).
  split; [exact Hnames | now apply Hget].
Defined.

(** X19: with the default configuration (no configuration file), whatever
    the registry, the query and the model's answer, [route] returns the
    name of a configured agent, so [process_query] never ends in the
    "agent not found" result: it is the selected agent's [execute] with the
    agent's name attached. *)
Theorem default_config_routes_to_an_agent {P : Platform} (tool_registry : ToolRegistry)
    (query : string) (history : option (list HistoryMessage)) (w : World) :
  let m := AgentManager_init (_load_config None) tool_registry in
  exists selected w' agent,
    route (router m) query history w = (Ok selected, w') /\
    dict_get selected (agents m) = Some agent /\
    process_query m query history w
    = match execute agent query history w' with
      | (Ok result, w'') =>
          (Ok (mkManagerResult (response result) selected (tools_used result)), w'')
      | (Raise e, w'') => (Raise e, w'')
      end.
Proof.
  intros m.
  destruct (route_known_or_general (router m) query history w)
    as (selected & w' & Hroute & Hsel).
  assert (Hkey : In selected (dict_keys (agents m))).
  { destruct Hsel as [Hin | ->]; [exact Hin |].
    apply create_agents_keys. simpl. now left. }
  apply dict_get_keys in Hkey. destruct Hkey as [agent Hagent].
  exists selected, w', agent. split; [exact Hroute |]. split; [exact Hagent |].
  unfold process_query. rewrite (bind_ok _ _ _ _ _ Hroute).
  unfold execute_with_agent, bind. rewrite Hagent.
  now destruct (execute agent query history w') as [[result | e] w''].
Qed.

(** X20: every tool that an agent of the default configuration lists is
    registered by [ToolRegistry.__init__], so a call to it is never
    answered "not found" or "not available"; and "delete_file", although
    registered, is on the list of no default agent. *)
Theorem default_agents_tools_are_registered {P : Platform} (methods : ToolMethods)
    (agent_name : string) (agent_config : AgentConfig) :
  dict_get agent_name (default [] (cfg_agents default_config)) = Some agent_config ->
  let agent := Agent_init agent_name agent_config (ToolRegistry_init methods) in
  (forall t, In t (tool_names agent) -> permitted agent (JStr t) = true) /\
  has_tool (ToolRegistry_init methods) (JStr "delete_file") = Ok true /\
  permitted agent (JStr "delete_file") = false.
Proof.
  intros Hget agent. simpl in Hget.
  repeat match type of Hget with
         | (if ?b then _ else _) = _ => destruct b
         end;
    try discriminate; injection Hget as <-; subst agent;
    (split; [| split; reflexivity]);
    intros t Hin; simpl in Hin;
    repeat (destruct Hin as [<- | Hin]; [reflexivity |]); contradiction.
Qed.

Lemma default_agents_tools_are_registered_witness :
  let agent :=
    Agent_init "code_helper"
      (mkAgentConfig (Some "ministral:3b")
         (Some "Code writing, debugging, technical questions") (Some (6 # 10)%Q)
         (Some ["read_file"; "write_file"; "execute_code"]))
      (ToolRegistry_init
         (mkToolMethods write_file_tool write_file_tool write_file_tool write_file_tool
            delete_file_tool write_file_tool write_file_tool write_file_tool
            write_file_tool create_event_tool create_event_tool create_event_tool
            write_file_tool)) in
  permitted agent (JStr "execute_code") = true /\
  permitted agent (JStr "delete_file") = false.
Proof.
  pose proof (default_agents_tools_are_registered (P := scripted)
                (mkToolMethods write_file_tool write_file_tool write_file_tool
                   write_file_tool delete_file_tool write_file_tool write_file_tool
                   write_file_tool write_file_tool create_event_tool create_event_tool
                   create_event_tool write_file_tool)
                "code_helper"
                (mkAgentConfig (Some "ministral:3b")
                   (Some "Code writing, debugging, technical questions") (Some (6 # 10)%Q)
                   (Some ["read_file"; "write_file"; "execute_code"]))
                eq_refl) as (Hall & _ & Hdel).
  split; [apply Hall; simpl; tauto | exact Hdel].
Defined.

(** X21: when the name [route] returns is not a key of the agent set (the
    fallback "general" of a configuration without such an agent),
    [process_query] runs no agent: it returns the error result naming the
    missing agent, from the world the routing call left. *)
Theorem process_query_reports_missing_agent {P : Platform} (self : AgentManager)
    (query : string) (history : option (list HistoryMessage)) (w w' : World)
    (selected : string) :
  route (router self) query history w = (Ok selected, w') ->
  dict_get selected (agents self) = None ->
  process_query self query history w
  = (Ok (mkManagerResult ("Error: Agent '" ++ selected ++ "' not found") "error" []), w')
  /\ exists tail,
       trace w' = (trace w ++ EvChat (route_request (router self) query) :: tail)%list /\
       Forall (fun ev => match ev with EvPrint _ => True | _ => False end) tail.
Proof.
  intros Hroute Hmissing. split.
  - unfold process_query. rewrite (bind_ok _ _ _ _ _ Hroute).
    unfold execute_with_agent. now rewrite Hmissing.
  - rewrite route_unfold in Hroute.
    destruct (ollama_chat (route_request (router self) query) (env w)) as [[raw | e] e'];
      injection Hroute as _ <-; simpl.
    + now exists [].
    + eexists. split; [reflexivity |]. now repeat constructor.
Qed.

Lemma process_query_reports_missing_agent_witness :
  let m := AgentManager_init calendar_only scripted_registry in
  process_query m "hello" None (scripted_world [Ok "no idea"])
  = (Ok (mkManagerResult "Error: Agent 'general' not found" "error" []),
     mkWorld (mkScriptEnv [] []) [EvChat (route_request (router m) "hello")]).
Proof.
  exact (proj1 (process_query_reports_missing_agent (P := scripted)
                  (AgentManager_init calendar_only scripted_registry) "hello" None
                  (scripted_world [Ok "no idea"])
                  (mkWorld (mkScriptEnv [] [])
                     [EvChat (route_request
                                (router (AgentManager_init calendar_only scripted_registry))
                                "hello")])
                  "general" eq_refl eq_refl)).
Defined.

(** ** The assistants *)

Section AssistantFacts.
Context {P : Platform}.
Variable now : Env -> string.

Lemma history_window_snoc (h : list HistoryMessage) (u : HistoryMessage) :
  exists earlier,
    history_window (Some (h ++ [u])%list) = (earlier ++ [as_message u])%list.
Proof.
  exists (map as_message (skipn (length (h ++ [u]) - 10) h)).
  assert (Hwin : history_window (Some (h ++ [u])%list)
                 = map as_message (skipn (length (h ++ [u]) - 10) (h ++ [u]))).
  { now destruct h. }
  rewrite Hwin, skipn_app, map_app.
  replace (length (h ++ [u]) - 10 - length h) with 0
    by (rewrite length_app; simpl; lia).
  reflexivity.
Qed.

Lemma process_query_selected (self : AgentManager) (prompt : string)
    (history : option (list HistoryMessage)) (w w1 : World) (selected : string)
    (agent : Agent) :
  route (router self) prompt history w = (Ok selected, w1) ->
  dict_get selected (agents self) = Some agent ->
  process_query self prompt history w
  = match execute agent prompt history w1 with
    | (Ok result, w2) =>
        (Ok (mkManagerResult (response result) selected (tools_used result)), w2)
    | (Raise e, w2) => (Raise e, w2)
    end.
Proof.
  intros Hroute Hagent. unfold process_query. rewrite (bind_ok _ _ _ _ _ Hroute).
  unfold execute_with_agent, bind. rewrite Hagent.
  now destruct (execute agent prompt history w1) as [[result | e] w2].
Qed.

Lemma alternating_app (h : list Message) (q a : Message) :
  alternating h -> role q = "user" -> role a = "assistant" ->
  alternating (h ++ [q; a]).
Proof.
  intros Hh Hq Ha.
  assert (Hn : forall n (l : list Message),
             length l <= n -> alternating l -> alternating (l ++ [q; a])).
  { induction n as [| n IH]; intros l Hlen Hl.
    - destruct l; [simpl; auto | simpl in Hlen; lia].
    - destruct l as [| x [| y rest]]; simpl in *; [auto | contradiction |].
      destruct Hl as (Hx & Hy & Hrest). repeat split; try assumption.
      apply IH; [lia | exact Hrest]. }
  exact (Hn (length h) h (le_n _) Hh).
Qed.

Lemma find_last_assistant_spec (l : list HistoryMessage) (m : HistoryMessage)
    (q : option string) :
  find_last_assistant l = Some (m, q) ->
  exists newer older,
    l = (newer ++ m :: older)%list /\
    h_role m = "assistant" /\
    Forall (fun x => h_role x <> "assistant") newer /\
    q = match older with
        | p :: _ => if String.eqb (h_role p) "user" then Some (h_content p) else None
        | [] => None
        end.
Proof.
  induction l as [| x l IH]; simpl; [discriminate |].
  destruct (String.eqb_spec (h_role x) "assistant") as [Hrole | Hrole].
  - intros [= <- <-]. exists [], l. repeat split; auto.
  - intros H. destruct (IH H) as (newer & older & -> & Hm & Hnewer & Hq).
    exists (x :: newer), older. repeat split; auto.
Qed.

End AssistantFacts.

(** X22: [MultiAgentAssistant.query] never raises and only ever appends to
    the conversation history.  It calls the manager once, on the history
    extended by the user entry (on the empty history when no history is
    kept).  When the manager returns, [query] returns the manager's
    result and, with history, has appended the user entry and the
    assistant entry carrying that result; when the manager raises,
    [query] returns the error result made from that exception (agent
    "error", the message under "error") and, with history, has appended
    the user entry alone.  Without history the assistant is unchanged. *)
Theorem query_never_raises_history_append_only {P : Platform} (now : Env -> string)
    (self : MultiAgentAssistant) (prompt : string) (use_history : bool) (w : World) :
  let entry := user_entry prompt (now (env w)) in
  let sent := if use_history then (conversation_history self ++ [entry])%list else [] in
  query now self prompt use_history w
  = match process_query (agent_manager self) prompt (Some sent) w with
    | (Ok r, w') =>
        (Ok (of_manager r,
             if use_history
             then with_history self
                    (conversation_history self
                       ++ [entry; assistant_entry r (now (env w'))])%list
             else self),
         w')
    | (Raise e, w') =>
        (Ok (error_result e,
             if use_history
             then with_history self (conversation_history self ++ [entry])%list
             else self),
         w')
    end /\
  exists result self' w' added,
    query now self prompt use_history w = (Ok (result, self'), w') /\
    conversation_history self' = (conversation_history self ++ added)%list /\
    agent_manager self' = agent_manager self.
Proof.
  intros entry sent.
  assert (Heq : query now self prompt use_history w
                = match process_query (agent_manager self) prompt (Some sent) w with
                  | (Ok r, w') =>
                      (Ok (of_manager r,
                           if use_history
                           then with_history self
                                  (conversation_history self
                                     ++ [entry; assistant_entry r (now (env w'))])%list
                           else self),
                       w')
                  | (Raise e, w') =>
                      (Ok (error_result e,
                           if use_history
                           then with_history self (conversation_history self ++ [entry])%list
                           else self),
                       w')
                  end).
  { unfold query, try_except, bind, sent, entry.
    destruct use_history; cbn [with_history conversation_history agent_manager].
    - destruct (process_query (agent_manager self) prompt _ w) as [[r | e] w'];
        [| reflexivity].
      unfold with_history. cbn [conversation_history agent_manager assistant_config
                                  assistant_registry].
      now rewrite <- app_assoc.
    - now destruct (process_query (agent_manager self) prompt _ w) as [[r | e] w']. }
  split; [exact Heq |].
  rewrite Heq.
  destruct (process_query (agent_manager self) prompt (Some sent) w) as [[r | e] w'];
    destruct use_history.
  - eexists _, _, w', _. split; [reflexivity |]. now split.
  - eexists _, _, w', []. split; [reflexivity |]. now rewrite app_nil_r.
  - eexists _, _, w', _. split; [reflexivity |]. now split.
  - eexists _, _, w', []. split; [reflexivity |]. now rewrite app_nil_r.
Qed.

Lemma query_never_raises_history_append_only_witness :
  let self :=
    mkMultiAgentAssistant three_agents scripted_registry
      (AgentManager_init three_agents scripted_registry) [] in
  let clock := fun e : ScriptEnv => str_of_nat (length (replies e)) in
  fst (query clock self "plan lunch" true (scripted_world [Ok "calendar"; Ok "Booked."]))
  = Ok (mkAssistantResult "Booked." "calendar" [] None,
        with_history self
          [mkHistoryMessage "user" "plan lunch" None [] "2";
           mkHistoryMessage "assistant" "Booked." (Some "calendar") [] "0"]) /\
  fst (query clock self "plan lunch" true (scripted_world [Ok "calendar"]))
  = Ok (mkAssistantResult "Error: backend unavailable" "error" []
          (Some "backend unavailable"),
        with_history self [mkHistoryMessage "user" "plan lunch" None [] "1"]).
Proof.
  intros self clock. split.
  - rewrite (proj1 (query_never_raises_history_append_only (P := scripted) clock self
                      "plan lunch" true (scripted_world [Ok "calendar"; Ok "Booked."]))).
    reflexivity.
  - rewrite (proj1 (query_never_raises_history_append_only (P := scripted) clock self
                      "plan lunch" true (scripted_world [Ok "calendar"]))).
    reflexivity.
Defined.

(** X23: with history kept, [query] appends the user entry before it calls
    the manager, so the agent that is selected receives the prompt twice:
    its first request ends with the prompt as the last history message and
    again as the final user turn. *)
Theorem query_sends_prompt_twice {P : Platform} (now : Env -> string)
    (self : MultiAgentAssistant) (prompt : string) (w w1 : World) (selected : string)
    (agent : Agent) :
  let sent := Some (history_sent now self prompt w) in
  route (router (agent_manager self)) prompt sent w = (Ok selected, w1) ->
  dict_get selected (agents (agent_manager self)) = Some agent ->
  exists before later,
    trace (snd (query now self prompt true w))
    = (trace w1 ++ EvChat (first_request agent prompt sent) :: later)%list /\
    req_messages (first_request agent prompt sent)
    = (before ++ [mkMessage "user" prompt; mkMessage "user" prompt])%list.
Proof.
  intros sent Hroute Hagent.
  destruct (history_window_snoc (conversation_history self)
              (user_entry prompt (now (env w)))) as [earlier Hwin].
  destruct (execute_trace_first agent prompt sent w1) as [later Hlater].
  exists (mkMessage "system" (_build_system_prompt agent) :: earlier), later.
  split.
  - unfold query, try_except, bind at 1.
    cbn [with_history conversation_history agent_manager].
    fold (history_sent now self prompt w). fold sent.
    rewrite (process_query_selected _ _ _ _ _ _ _ Hroute Hagent).
    rewrite <- Hlater.
    now destruct (execute agent prompt sent w1) as [[result | e] w2].
  - unfold first_request, first_pass_messages, sent, history_sent. cbn [req_messages].
    rewrite Hwin. cbn [as_message user_entry h_role h_content].
    cbn [app]. now rewrite <- app_assoc.
Qed.

Lemma query_sends_prompt_twice_witness :
  let self :=
    mkMultiAgentAssistant three_agents scripted_registry
      (AgentManager_init three_agents scripted_registry) [] in
  let agent :=
    Agent_init "calendar"
      (mkAgentConfig None (Some "Calendar management") None (Some ["create_event"]))
      scripted_registry in
  exists before later,
    trace (snd (query (fun _ => "12:00") self "plan lunch" true
                  (scripted_world [Ok "calendar"; Ok "Booked."])))
    = (trace (snd (route (router (agent_manager self)) "plan lunch"
                     (Some [user_entry "plan lunch" "12:00"])
                     (scripted_world [Ok "calendar"; Ok "Booked."])))
         ++ EvChat (first_request agent "plan lunch"
                      (Some [user_entry "plan lunch" "12:00"])) :: later)%list /\
    req_messages (first_request agent "plan lunch" (Some [user_entry "plan lunch" "12:00"]))
    = (before ++ [mkMessage "user" "plan lunch"; mkMessage "user" "plan lunch"])%list.
Proof.
  apply (query_sends_prompt_twice (P := scripted) (fun _ => "12:00")
           (mkMultiAgentAssistant three_agents scripted_registry
              (AgentManager_init three_agents scripted_registry) [])
           "plan lunch" (scripted_world [Ok "calendar"; Ok "Booked."])
           _ "calendar"); reflexivity.
Defined.

(** X24: when the window forces an agent (the selector holds a name other
    than "auto"), the request goes straight to [execute_with_agent] on the
    assistant's history: the exchange is not recorded (the assistant is
    given back unchanged), and an exception of the agent is not turned
    into an error result but propagates. *)
Theorem forced_agent_is_not_recorded {P : Platform} (now : Env -> string)
    (assistant : MultiAgentAssistant) (agent_var query_text : string) (w : World) :
  agent_var <> "auto" ->
  agent_var <> "" ->
  send_query_process now assistant agent_var query_text w
  = match execute_with_agent (agent_manager assistant) agent_var query_text
            (Some (conversation_history assistant)) w with
    | (Ok result, w') => (Ok (of_manager result, assistant), w')
    | (Raise e, w') => (Raise e, w')
    end.
Proof.
  intros Hauto Hempty. unfold send_query_process, force_agent_of.
  destruct (String.eqb_spec agent_var "auto") as [-> | _]; [congruence |].
  destruct (String.eqb_spec agent_var "") as [-> | _]; [congruence |].
  unfold bind.
  now destruct (execute_with_agent _ _ _ _ w) as [[result | e] w'].
Qed.

Lemma forced_agent_is_not_recorded_witness :
  let assistant :=
    mkMultiAgentAssistant three_agents scripted_registry
      (AgentManager_init three_agents scripted_registry) [] in
  send_query_process (fun _ => "12:00") assistant "calendar" "plan lunch" (scripted_world [])
  = (Raise (mkExn RuntimeFailure "backend unavailable"),
     snd (execute_with_agent (agent_manager assistant) "calendar" "plan lunch" (Some [])
            (scripted_world []))).
Proof.
  exact (forced_agent_is_not_recorded (P := scripted) (fun _ => "12:00")
           (mkMultiAgentAssistant three_agents scripted_registry
              (AgentManager_init three_agents scripted_registry) [])
           "calendar" "plan lunch" (scripted_world [])
           ltac:(discriminate) ltac:(discriminate)).
Defined.

(** X25: [OllamaAssistant.query] sends the history followed by the prompt
    (the prompt alone when no history is kept) in one model call.  When
    the call returns, its text is the answer and, with history, exactly
    the prompt and that answer are appended; without history, and when
    the call raises, the assistant is left as it was, and on failure the
    text "Error: " followed by the message is returned.  So a history
    made of user turns each followed by its answer stays one. *)
Theorem plain_query_keeps_alternation {P : Platform}
    (ollama_chat_plain : string -> list Message -> Env -> Outcome string * Env)
    (self : OllamaAssistant) (prompt : string) (use_history : bool) (e : Env) :
  let user := mkMessage "user" prompt in
  let messages := if use_history then (plain_history self ++ [user])%list else [user] in
  plain_query ollama_chat_plain self prompt use_history e
  = match ollama_chat_plain (plain_model self) messages e with
    | (Ok answer, e') =>
        ((answer,
          if use_history
          then mkOllamaAssistant (plain_model self)
                 (plain_history self ++ [user; mkMessage "assistant" answer])%list
          else self),
         e')
    | (Raise ex, e') => (("Error: " ++ exn_str ex, self), e')
    end /\
  (alternating (plain_history self) ->
   alternating
     (plain_history (snd (fst (plain_query ollama_chat_plain self prompt use_history e))))).
Proof.
  intros user messages. unfold plain_query. fold user. fold messages.
  destruct (ollama_chat_plain (plain_model self) messages e) as [[a | ex] e'];
    cbn [fst snd].
  - destruct use_history; cbn [plain_history].
    + rewrite <- app_assoc. cbn [app]. split; [reflexivity |].
      intros Halt. now apply alternating_app.
    + now split.
  - now split.
Qed.

Lemma plain_query_keeps_alternation_witness :
  let chat := fun (_ : string) (msgs : list Message) (e : ScriptEnv) =>
                match msgs with
                | [_; _; m] => (Ok ("Re: " ++ content m), e)
                | _ => (Raise (mkExn RuntimeFailure "no reply"), e)
                end in
  let self := mkOllamaAssistant "ministral:3b"
                [mkMessage "user" "hi"; mkMessage "assistant" "Hi."] in
  plain_query chat self "again" true (mkScriptEnv [] [])
  = (("Re: again",
      mkOllamaAssistant "ministral:3b"
        [mkMessage "user" "hi"; mkMessage "assistant" "Hi.";
         mkMessage "user" "again"; mkMessage "assistant" "Re: again"]),
     mkScriptEnv [] []) /\
  plain_query chat self "again" false (mkScriptEnv [] [])
  = (("Error: no reply", self), mkScriptEnv [] []).
Proof.
  intros chat self. split.
  - rewrite (proj1 (plain_query_keeps_alternation (P := scripted) chat self "again" true
                      (mkScriptEnv [] []))).
    reflexivity.
  - rewrite (proj1 (plain_query_keeps_alternation (P := scripted) chat self "again" false
                      (mkScriptEnv [] []))).
    reflexivity.
Defined.

(** X26: the search of [save_last_response] picks the last assistant entry
    of the history, provided its content is not empty, and as the query
    the entry just before it when that one is a user entry; when the
    history has no assistant entry, or the last one has empty content,
    nothing is picked. *)
Theorem response_to_save_is_last_assistant (history : list HistoryMessage) :
  (forall before m after,
      history = (before ++ m :: after)%list ->
      h_role m = "assistant" ->
      Forall (fun x => h_role x <> "assistant") after ->
      response_to_save history
      = if String.eqb (h_content m) "" then None
        else Some (m,
                   match rev before with
                   | p :: _ =>
                       if String.eqb (h_role p) "user" then Some (h_content p) else None
                   | [] => None
                   end)) /\
  (Forall (fun x => h_role x <> "assistant") history -> response_to_save history = None) /\
  (forall m q,
      response_to_save history = Some (m, q) ->
      exists before after,
        history = (before ++ m :: after)%list /\
        h_role m = "assistant" /\
        h_content m <> "" /\
        Forall (fun x => h_role x <> "assistant") after /\
        q = match rev before with
            | p :: _ => if String.eqb (h_role p) "user" then Some (h_content p) else None
            | [] => None
            end).
Proof.
  assert (Hnone : forall l, Forall (fun x => h_role x <> "assistant") l ->
                            forall tail, find_last_assistant (l ++ tail)
                                         = find_last_assistant tail).
  { induction 1 as [| x l Hx _ IH]; intros tail; simpl; [reflexivity |].
    apply String.eqb_neq in Hx. rewrite Hx. apply IH. }
  assert (Hrev : forall l, Forall (fun x => h_role x <> "assistant") l ->
                           Forall (fun x => h_role x <> "assistant") (rev l)).
  { intros l Hl. apply List.Forall_forall. intros x Hx. apply in_rev in Hx.
    revert x Hx. now apply List.Forall_forall. }
  split; [| split].
  - intros before m after -> Hrole Hafter. unfold response_to_save.
    rewrite rev_app_distr. simpl. rewrite <- app_assoc. simpl.
    rewrite (Hnone _ (Hrev _ Hafter)). simpl. rewrite Hrole. simpl.
    reflexivity.
  - intros Hall. unfold response_to_save.
    pose proof (Hnone _ (Hrev _ Hall) []) as H. rewrite app_nil_r in H. now rewrite H.
  - intros m q H. unfold response_to_save in H.
    destruct (find_last_assistant (rev history)) as [[m' q'] |] eqn:Hfind; [| discriminate].
    destruct (String.eqb_spec (h_content m') "") as [| Hcontent]; [discriminate |].
    injection H as <- <-.
    destruct (find_last_assistant_spec _ _ _ Hfind)
      as (newer & older & Hrv & Hrole & Hnewer & Hq).
    exists (rev older), (rev newer).
    assert (Hhist : history = (rev older ++ m' :: rev newer)%list).
    { rewrite <- (rev_involutive history), Hrv, rev_app_distr. simpl.
      now rewrite <- app_assoc. }
    split; [exact Hhist |]. split; [exact Hrole |]. split; [exact Hcontent |].
    split; [now apply Hrev | now rewrite rev_involutive].
Qed.

Lemma response_to_save_is_last_assistant_witness :
  let q1 := mkHistoryMessage "user" "plan lunch" None [] "12:00" in
  let a1 := mkHistoryMessage "assistant" "Booked." (Some "calendar")
              [JStr "create_event"] "12:01" in
  let q2 := mkHistoryMessage "user" "and dinner" None [] "12:02" in
  response_to_save [q1; a1; q2] = Some (a1, Some "plan lunch") /\
  response_to_save [a1; q2] = Some (a1, None) /\
  response_to_save [q1; q2] = None.
Proof.
  intros q1 a1 q2.
  assert (Hq2 : Forall (fun x => h_role x <> "assistant") [q2]).
  { constructor; [discriminate | constructor]. }
  assert (Hq12 : Forall (fun x => h_role x <> "assistant") [q1; q2]).
  { constructor; [discriminate | exact Hq2]. }
  pose proof (proj1 (response_to_save_is_last_assistant [q1; a1; q2]) [q1] a1 [q2]
                eq_refl eq_refl Hq2) as H1.
  pose proof (proj1 (response_to_save_is_last_assistant [a1; q2]) [] a1 [q2]
                eq_refl eq_refl Hq2) as H2.
  pose proof (proj1 (proj2 (response_to_save_is_last_assistant [q1; q2])) Hq12) as H3.
  split; [exact H1 | split; [exact H2 | exact H3]].
Defined.


